(** * PymongoIterator: a cursor iterator that reopens its cursor when it is lost

    A shallow embedding of [pymongo_iterator.py].  The class talks to two
    pymongo objects, a collection and a cursor; both are duck-typed
    collaborators, so they appear here as an interface ([Pymongo]) and the
    class is embedded once, over any implementation of that interface.
    Every call the class makes on a collaborator is recorded in a trace, so
    that statements such as "no find is issued" can be read off a run.

    Python integers are unbounded: they are [Z].  Exceptions are an error
    monad layered over the state (the object and the outside world); an
    exception keeps the mutations made before it was raised, as in Python. *)

From Stdlib Require Import ZArith String.
From stdpp Require Import base list.
Local Open Scope Z_scope.

(** ** Exceptions and the state-and-exception monad *)

(** The exception classes the code distinguishes.  [CursorNotFound] is the
    only class named in an [except] clause, [StopIteration] is the iterator
    protocol's end marker, [AttributeError] is what reading [self.doc]
    before any assignment would raise; every other class is an
    [OtherError], told apart by a code. *)
Inductive exn : Type :=
| StopIteration
| CursorNotFound
| AttributeError
| OtherError (code : nat).

Definition exn_eqb (a b : exn) : bool :=
  match a, b with
  | StopIteration, StopIteration => true
  | CursorNotFound, CursorNotFound => true
  | AttributeError, AttributeError => true
  | OtherError m, OtherError n => Nat.eqb m n
  | _, _ => false
  end.

Inductive outcome (A : Type) : Type :=
| Return (a : A)
| Raise (e : exn).
Arguments Return {A} a.
Arguments Raise {A} e.

Definition M (S A : Type) : Type := S -> outcome A * S.

Definition ret {S A} (a : A) : M S A := fun s => (Return a, s).

Definition raise {S A} (e : exn) : M S A := fun s => (Raise e, s).

Definition bind {S A B} (m : M S A) (k : A -> M S B) : M S B :=
  fun s =>
    match m s with
    | (Return a, s') => k a s'
    | (Raise e, s') => (Raise e, s')
    end.

(** [try: body / except cls: handler]: the handler runs in the state the
    body left behind. *)
Definition try_except {S A} (body : M S A) (cls : exn) (handler : M S A)
  : M S A :=
  fun s =>
    match body s with
    | (Return a, s') => (Return a, s')
    | (Raise e, s') =>
        if exn_eqb e cls then handler s' else (Raise e, s')
    end.

Definition modify {S} (f : S -> S) : M S unit := fun s => (Return tt, f s).

Declare Scope py_scope.
Delimit Scope py_scope with py.
Notation "x <- m ;; k" := (bind m (fun x => k))
  (at level 100, m at next level, right associativity) : py_scope.
Notation "m ;; k" := (bind m (fun _ => k))
  (at level 100, right associativity) : py_scope.

(** The range of a 32-bit signed integer. *)
Definition int32_min : Z := - 2 ^ 31.
Definition int32_max : Z := 2 ^ 31 - 1.
Definition fits_int32 (z : Z) : bool := (int32_min <=? z) && (z <=? int32_max).

(** Truth value of a Python integer in an [if]. *)
Definition truthy (z : Z) : bool := negb (z =? 0).

(** ** The collaborators *)

(** What the class needs from pymongo.  [Db] is the state of everything
    outside the iterator object (server, network, the cursor objects
    themselves); a call may change it and may raise.  The cursor's
    [sort], [skip] and [limit] return the cursor they were called on,
    which is how the code chains them. *)
Class Pymongo : Type := {
  Collection : Type;
  Filter : Type;
  SortSpec : Type;
  Doc : Type;
  Cursor : Type;
  Db : Type;
  count_documents : Collection -> Filter -> Z -> Z -> Db -> outcome Z * Db;
  find : Collection -> Filter -> bool -> Db -> outcome Cursor * Db;
  cursor_sort : Cursor -> SortSpec -> Db -> outcome Cursor * Db;
  cursor_skip : Cursor -> Z -> Db -> outcome Cursor * Db;
  cursor_limit : Cursor -> Z -> Db -> outcome Cursor * Db;
  cursor_next : Cursor -> Db -> outcome Doc * Db;
  cursor_close : Cursor -> Db -> outcome unit * Db;
}.

(** One argument of a [print] call. *)
Inductive PrintArg : Type :=
| PStr (s : string)
| PInt (z : Z).

Section Iterator.
Context `{P : Pymongo}.

(** The calls the class makes, with their arguments, in program order. *)
Inductive Event : Type :=
| ECount (f : Filter) (skip limit : Z)
| EFind (f : Filter) (no_cursor_timeout : bool)
| ESort (c : Cursor) (s : SortSpec)
| ESkip (c : Cursor) (n : Z)
| ELimit (c : Cursor) (n : Z)
| ENext (c : Cursor)
| EClose (c : Cursor)
| EPrint (args : list PrintArg).

Record World : Type := mkWorld {
  db : Db;
  trace : list Event;
}.

(** A call on a collaborator: log it, then let the outside world answer. *)
Definition call {A} (ev : Event) (op : Db -> outcome A * Db) : M World A :=
  fun w =>
    let '(r, d) := op (db w) in
    (r, {| db := d; trace := trace w ++ [ev] |}).

Definition print (args : list PrintArg) : M World unit :=
  fun w => (Return tt, {| db := db w; trace := trace w ++ [EPrint args] |}).

(** ** The class *)

Record PymongoIterator : Type := mkIterator {
  collection : Collection;
  search_opts : Filter;
  sort_opts : SortSpec;
  skip : Z;
  disp_progress : Z;
  limit : Z;
  i : Z;
  total_docs : Z;
  cursor : Cursor;
  doc : option Doc;
}.

Definition set_cursor (c : Cursor) (self : PymongoIterator) :=
  {| collection := collection self; search_opts := search_opts self;
     sort_opts := sort_opts self; skip := skip self;
     disp_progress := disp_progress self; limit := limit self;
     i := i self; total_docs := total_docs self;
     cursor := c; doc := doc self |}.

Definition set_doc (d : Doc) (self : PymongoIterator) :=
  {| collection := collection self; search_opts := search_opts self;
     sort_opts := sort_opts self; skip := skip self;
     disp_progress := disp_progress self; limit := limit self;
     i := i self; total_docs := total_docs self;
     cursor := cursor self; doc := Some d |}.

Definition set_i (n : Z) (self : PymongoIterator) :=
  {| collection := collection self; search_opts := search_opts self;
     sort_opts := sort_opts self; skip := skip self;
     disp_progress := disp_progress self; limit := limit self;
     i := n; total_docs := total_docs self;
     cursor := cursor self; doc := doc self |}.

(** [self.i += 1]. *)
Definition incr_i (self : PymongoIterator) := set_i (i self + 1) self.

(** A method runs on the object and the world together. *)
Definition Obj : Type := PymongoIterator * World.

Definition self : M Obj PymongoIterator := fun s => (Return (fst s), s).

Definition assign (f : PymongoIterator -> PymongoIterator) : M Obj unit :=
  modify (fun s : Obj => (f (fst s), snd s)).

Definition world {A} (m : M World A) : M Obj A :=
  fun s => let '(r, w) := m (snd s) in (r, (fst s, w)).

(** [limit == 0] on the constructor's argument (lines 40-43). *)
Definition normalize_limit (limit : Z) : Z :=
  if limit =? 0 then 2 ^ 31 else limit.

(** [__init__] (lines 27-53).  The object exists only once the
    constructor returns, so it is built at the end; an exception in the
    count or while the cursor is configured leaves no object. *)
Definition __init__ (collection : Collection) (search_opts : Filter)
    (sort_opts : SortSpec) (skip limit disp_progress : Z)
  : M World PymongoIterator :=
  (let self_limit := normalize_limit limit in
   total_docs <- call (ECount search_opts skip self_limit)
                   (count_documents collection search_opts skip self_limit) ;;
   print [PStr "Iterating over"; PInt total_docs; PStr "documents..."] ;;
   c0 <- call (EFind search_opts true) (find collection search_opts true) ;;
   c1 <- call (ESort c0 sort_opts) (cursor_sort c0 sort_opts) ;;
   c2 <- call (ESkip c1 skip) (cursor_skip c1 skip) ;;
   c3 <- call (ELimit c2 self_limit) (cursor_limit c2 self_limit) ;;
   ret {| collection := collection; search_opts := search_opts;
          sort_opts := sort_opts; skip := skip;
          disp_progress := disp_progress; limit := self_limit;
          i := 0; total_docs := total_docs; cursor := c3;
          doc := None |})%py.

(** The local [intermediate_limit] of [__reinitialize] (lines 82-85). *)
Definition intermediate_limit (s : PymongoIterator) : Z :=
  if truthy (limit s) then limit s - i s else 0.

(** [__reinitialize] (lines 79-92). *)
Definition __reinitialize : M Obj Doc :=
  (s <- self ;;
   let intermediate_limit := intermediate_limit s in
   c0 <- world (call (EFind (search_opts s) true)
                  (find (collection s) (search_opts s) true)) ;;
   c1 <- world (call (ESkip c0 (i s + skip s)) (cursor_skip c0 (i s + skip s))) ;;
   c2 <- world (call (ELimit c1 intermediate_limit)
                  (cursor_limit c1 intermediate_limit)) ;;
   assign (set_cursor c2) ;;
   d <- world (call (ENext c2) (cursor_next c2)) ;;
   assign incr_i ;;
   ret d)%py.

(** The body of the [try] in [__next__] (lines 66-70). *)
Definition pull : M Obj unit :=
  (s <- self ;;
   d <- world (call (ENext (cursor s)) (cursor_next (cursor s))) ;;
   assign (set_doc d) ;;
   assign incr_i ;;
   s' <- self ;;
   if truthy (disp_progress s') then
     if i s' mod disp_progress s' =? 0 then
       world (print [PStr "Parsing doc"; PInt (i s'); PStr "of";
                     PInt (total_docs s')])
     else ret tt
   else ret tt)%py.

(** [return self.doc] (line 74). *)
Definition return_doc : M Obj Doc :=
  fun s =>
    match doc (fst s) with
    | Some d => (Return d, s)
    | None => (Raise AttributeError, s)
    end.

(** [__next__] (lines 59-74).  The [except] clause returns from the
    method, so the [try] statement yields [Some] of the value returned
    there and [None] when control falls through to line 74. *)
Definition __next__ : M Obj Doc :=
  (s <- self ;;
   if i s >=? total_docs s then
     world (call (EClose (cursor s)) (cursor_close (cursor s))) ;;
     raise StopIteration
   else
     early <- try_except (pull ;; ret None) CursorNotFound
                (world (print [PStr "Lost cursor, reinitializing..."]) ;;
                 d <- __reinitialize ;;
                 ret (Some d)) ;;
     match early with
     | Some d => ret d
     | None => return_doc
     end)%py.

(** [__len__] (lines 76-77). *)
Definition __len__ : M Obj Z :=
  (s <- self ;; ret (total_docs s))%py.

(** [__iter__] (lines 55-57). *)
Definition __iter__ : M Obj PymongoIterator := self.

(** ** Driving the iterator *)

(** The state after [n] calls of [__next__], whatever they returned. *)
Fixpoint advance_n (n : nat) (s : Obj) : Obj :=
  match n with
  | O => s
  | S n' => advance_n n' (snd (__next__ s))
  end.

(** [list(it)], the [for] loop protocol: call [__next__] until it raises;
    [StopIteration] ends the loop, any other exception leaves it.  [None]
    is "more than [fuel] documents". *)
Fixpoint to_list (fuel : nat) (s : Obj) : option (outcome (list Doc) * Obj) :=
  match fuel with
  | O => None
  | S fuel' =>
      match __next__ s with
      | (Return d, s') =>
          match to_list fuel' s' with
          | Some (Return ds, s'') => Some (Return (d :: ds), s'')
          | other => other
          end
      | (Raise StopIteration, s') => Some (Return [], s')
      | (Raise e, s') => Some (Raise e, s')
      end
  end.

(** The calls a run added to the trace. *)
Definition new_events (before after : World) : list Event :=
  drop (length (trace before)) (trace after).

Definition is_next (ev : Event) : bool :=
  match ev with ENext _ => true | _ => false end.

Definition is_find (ev : Event) : bool :=
  match ev with EFind _ _ => true | _ => false end.

Definition is_sort (ev : Event) : bool :=
  match ev with ESort _ _ => true | _ => false end.

Definition is_close (ev : Event) : bool :=
  match ev with EClose _ => true | _ => false end.

Definition is_count (ev : Event) : bool :=
  match ev with ECount _ _ _ => true | _ => false end.

Definition is_print (ev : Event) : bool :=
  match ev with EPrint _ => true | _ => false end.

(** Two objects with the same query and the same total: everything the
    constructor stored except the position, the cursor and [doc]. *)
Definition same_query (s s' : PymongoIterator) : Prop :=
  collection s' = collection s
  /\ search_opts s' = search_opts s
  /\ sort_opts s' = sort_opts s
  /\ skip s' = skip s
  /\ disp_progress s' = disp_progress s
  /\ limit s' = limit s
  /\ total_docs s' = total_docs s.

(** What lines 68-70 print once the object has been updated to [s]. *)
Definition progress_events (s : PymongoIterator) : list Event :=
  if truthy (disp_progress s) then
    if i s mod disp_progress s =? 0 then
      [EPrint [PStr "Parsing doc"; PInt (i s); PStr "of";
               PInt (total_docs s)]]
    else []
  else [].

(** What line 72 prints. *)
Definition lost_cursor_line : Event :=
  EPrint [PStr "Lost cursor, reinitializing..."].

(** The runs of [__reinitialize] from object [s]: the outcome, the object
    left behind and the calls made.  One constructor per place where the
    method can stop. *)
Inductive reinit_run (s : PymongoIterator)
  : outcome Doc -> PymongoIterator -> list Event -> Prop :=
| reinit_find_raises e :
    reinit_run s (Raise e) s [EFind (search_opts s) true]
| reinit_skip_raises e c0 :
    reinit_run s (Raise e) s
      [EFind (search_opts s) true; ESkip c0 (i s + skip s)]
| reinit_limit_raises e c0 c1 :
    reinit_run s (Raise e) s
      [EFind (search_opts s) true; ESkip c0 (i s + skip s);
       ELimit c1 (intermediate_limit s)]
| reinit_pull_raises e c0 c1 c2 :
    reinit_run s (Raise e) (set_cursor c2 s)
      [EFind (search_opts s) true; ESkip c0 (i s + skip s);
       ELimit c1 (intermediate_limit s); ENext c2]
| reinit_returns d c0 c1 c2 :
    reinit_run s (Return d) (incr_i (set_cursor c2 s))
      [EFind (search_opts s) true; ESkip c0 (i s + skip s);
       ELimit c1 (intermediate_limit s); ENext c2].

End Iterator.

(** ** A server holding a fixed collection

    An implementation of [Pymongo] to run the class against: one
    collection whose documents do not change, cursors that live in the
    server and are named by a handle, and a schedule of failures for the
    pulls to come.  It follows pymongo's documented behaviour: [find] is
    lazy and only creates a cursor; a cursor's [sort], [skip] and [limit]
    configure it in place and return it; a limit of 0 on a cursor means
    no limit; [count_documents] rejects a limit that is not positive. *)

Section FixedCollection.
Context {D : Type}.

Inductive Order : Type :=
| Natural
| OrderBy (leb : D -> D -> bool).

Record CursorState : Type := mkCursor {
  c_filter : D -> bool;
  c_order : Order;
  c_skip : Z;
  c_limit : Z;
  c_pos : nat;
  c_open : bool;
}.

Record Server : Type := mkServer {
  documents : list D;
  cursors : list CursorState;
  (** what the next pulls raise instead of answering, oldest first *)
  faults : list (option exn);
  (** what [close] raises, if anything *)
  close_error : option exn;
}.

Fixpoint insert_by (leb : D -> D -> bool) (x : D) (l : list D) : list D :=
  match l with
  | [] => [x]
  | y :: l' => if leb x y then x :: l else y :: insert_by leb x l'
  end.

Fixpoint sort_by (leb : D -> D -> bool) (l : list D) : list D :=
  match l with
  | [] => []
  | x :: l' => insert_by leb x (sort_by leb l')
  end.

Definition ordered (o : Order) (l : list D) : list D :=
  match o with
  | Natural => l
  | OrderBy leb => sort_by leb l
  end.

(** The first [n] elements, and the rest, with the count an integer (a
    limit of [2 ^ 31] is not to be unfolded into a unary number). *)
Fixpoint takeZ (n : Z) (l : list D) : list D :=
  match l with
  | [] => []
  | x :: l' => if n <=? 0 then [] else x :: takeZ (n - 1) l'
  end.

Fixpoint dropZ (n : Z) (l : list D) : list D :=
  match l with
  | [] => []
  | x :: l' => if n <=? 0 then l else dropZ (n - 1) l'
  end.

Definition limited (limit : Z) (l : list D) : list D :=
  if limit =? 0 then l else takeZ (Z.abs limit) l.

(** The documents a cursor delivers, in order. *)
Definition result_set (cs : CursorState) (docs : list D) : list D :=
  limited (c_limit cs)
    (dropZ (c_skip cs)
       (ordered (c_order cs) (List.filter (c_filter cs) docs))).

Definition with_cursors (cur : list CursorState) (srv : Server) : Server :=
  {| documents := documents srv; cursors := cur; faults := faults srv;
     close_error := close_error srv |}.

Definition with_faults (fs : list (option exn)) (srv : Server) : Server :=
  {| documents := documents srv; cursors := cursors srv; faults := fs;
     close_error := close_error srv |}.

Definition with_documents (docs : list D) (srv : Server) : Server :=
  {| documents := docs; cursors := cursors srv; faults := faults srv;
     close_error := close_error srv |}.

Definition configure (c : nat) (f : CursorState -> CursorState)
    (srv : Server) : outcome nat * Server :=
  match cursors srv !! c with
  | Some cs => (Return c, with_cursors (<[c := f cs]> (cursors srv)) srv)
  | None => (Raise (OtherError 2), srv)
  end.

Definition fc_count_documents (_ : unit) (f : D -> bool) (skip limit : Z)
    (srv : Server) : outcome Z * Server :=
  if (skip <? 0) || (limit <=? 0) then (Raise (OtherError 1), srv)
  else
    (Return
       (Z.of_nat
          (length (takeZ limit
                     (dropZ skip (List.filter f (documents srv)))))),
     srv).

Definition fc_find (_ : unit) (f : D -> bool) (no_cursor_timeout : bool)
    (srv : Server) : outcome nat * Server :=
  (Return (length (cursors srv)),
   with_cursors
     (cursors srv ++
      [{| c_filter := f; c_order := Natural; c_skip := 0; c_limit := 0;
          c_pos := 0; c_open := true |}])
     srv).

Definition fc_sort (c : nat) (o : Order) : Server -> outcome nat * Server :=
  configure c (fun cs =>
    {| c_filter := c_filter cs; c_order := o; c_skip := c_skip cs;
       c_limit := c_limit cs; c_pos := c_pos cs; c_open := c_open cs |}).

Definition fc_skip (c : nat) (n : Z) (srv : Server) : outcome nat * Server :=
  if n <? 0 then (Raise (OtherError 3), srv)
  else
    configure c (fun cs =>
      {| c_filter := c_filter cs; c_order := c_order cs; c_skip := n;
         c_limit := c_limit cs; c_pos := c_pos cs; c_open := c_open cs |})
      srv.

Definition fc_limit (c : nat) (n : Z) : Server -> outcome nat * Server :=
  configure c (fun cs =>
    {| c_filter := c_filter cs; c_order := c_order cs; c_skip := c_skip cs;
       c_limit := n; c_pos := c_pos cs; c_open := c_open cs |}).

Definition closed (cs : CursorState) : CursorState :=
  {| c_filter := c_filter cs; c_order := c_order cs; c_skip := c_skip cs;
     c_limit := c_limit cs; c_pos := c_pos cs; c_open := false |}.

Definition stepped (cs : CursorState) : CursorState :=
  {| c_filter := c_filter cs; c_order := c_order cs; c_skip := c_skip cs;
     c_limit := c_limit cs; c_pos := S (c_pos cs); c_open := c_open cs |}.

(** A pull.  A closed cursor is exhausted.  On an open one the schedule
    is consulted first: a scheduled failure kills the cursor and is
    raised.  Otherwise the cursor delivers its next document, or
    [StopIteration] past the end of its result set. *)
Definition fc_next (c : nat) (srv : Server) : outcome D * Server :=
  match cursors srv !! c with
  | None => (Raise (OtherError 2), srv)
  | Some cs =>
      if c_open cs then
        match faults srv with
        | Some e :: fs =>
            (Raise e,
             with_faults fs (with_cursors (<[c := closed cs]> (cursors srv)) srv))
        | fs =>
            match result_set cs (documents srv) !! c_pos cs with
            | Some d =>
                (Return d,
                 with_faults (tail fs)
                   (with_cursors (<[c := stepped cs]> (cursors srv)) srv))
            | None => (Raise StopIteration, with_faults (tail fs) srv)
            end
        end
      else (Raise StopIteration, srv)
  end.

Definition fc_close (c : nat) (srv : Server) : outcome unit * Server :=
  match close_error srv with
  | Some e => (Raise e, srv)
  | None =>
      match cursors srv !! c with
      | Some cs => (Return tt, with_cursors (<[c := closed cs]> (cursors srv)) srv)
      | None => (Raise (OtherError 2), srv)
      end
  end.

#[export] Instance FixedCollection : Pymongo := {|
  Collection := unit;
  Filter := D -> bool;
  SortSpec := Order;
  Doc := D;
  Cursor := nat;
  Db := Server;
  count_documents := fc_count_documents;
  find := fc_find;
  cursor_sort := fc_sort;
  cursor_skip := fc_skip;
  cursor_limit := fc_limit;
  cursor_next := fc_next;
  cursor_close := fc_close;
|}.

(** Every scheduled failure is a lost cursor, and the pull right after a
    lost cursor (the one [__reinitialize] makes) is not lost as well. *)
Fixpoint isolated_losses (fs : list (option exn)) : bool :=
  match fs with
  | [] => true
  | None :: fs' => isolated_losses fs'
  | Some CursorNotFound :: fs' =>
      match fs' with
      | Some _ :: _ => false
      | _ => isolated_losses fs'
      end
  | Some _ :: _ => false
  end.

(** A fresh server (no cursor yet) and an empty trace. *)
Definition start (docs : list D) (fs : list (option exn))
    (ce : option exn) : World :=
  {| db := {| documents := docs; cursors := []; faults := fs;
              close_error := ce |};
     trace := [] |}.

(** What the constructor's query selects, in natural order. *)
Definition selected (f : D -> bool) (sk lim : Z) (docs : list D) : list D :=
  takeZ lim (dropZ sk (List.filter f docs)).

(** What the active cursor has yet to deliver. *)
Definition pending (cs : CursorState) (docs : list D) : list D :=
  drop (c_pos cs) (result_set cs docs).

(** The states of an iteration over [docs] that started with filter [f],
    skip [sk] and stored limit [lim]: the collection and the object's
    query are unchanged, closing works, the failures still to come are
    isolated cursor losses, and the active cursor has exactly the
    [total_docs - i] documents not yet emitted pending, and is open
    while there are any; when the sort order is the natural one, these
    are the documents after the first [i] of the selection. *)
Record healthy (f : D -> bool) (sk lim : Z) (docs : list D) (x : Obj)
  : Prop := mkHealthy {
  h_docs : documents (db x.2) = docs;
  h_close : close_error (db x.2) = None;
  h_faults : isolated_losses (faults (db x.2)) = true;
  h_filter : search_opts x.1 = f;
  h_skip : skip x.1 = sk;
  h_limit : limit x.1 = lim;
  h_total : total_docs x.1 = Z.of_nat (length (selected f sk lim docs));
  h_bounds : 0 <= i x.1 <= total_docs x.1;
  h_cursor :
    exists cs,
      cursors (db x.2) !! cursor x.1 = Some cs
      /\ (i x.1 < total_docs x.1 -> c_open cs = true)
      /\ Z.of_nat (length (pending cs docs)) = total_docs x.1 - i x.1
      /\ (sort_opts x.1 = Natural ->
          pending cs docs
          = drop (Z.to_nat (i x.1)) (selected f sk lim docs));
}.

End FixedCollection.
Arguments Order D : clear implicits.
Arguments CursorState D : clear implicits.
Arguments Server D : clear implicits.
Arguments FixedCollection D : clear implicits.

(** ** Sample runs

    Documents are integers.  [demo docs fs ce] is the constructor called
    with its default arguments on a fresh server; [demo_iterator total] is
    the object it returns when the collection holds [total] documents. *)

Definition every : Z -> bool := fun _ => true.
Definition nothing : Z -> bool := fun _ => false.
Definition descending : Order Z := OrderBy Z.geb.

Definition demo (docs : list Z) (fs : list (option exn)) (ce : option exn)
  : outcome (@PymongoIterator (FixedCollection Z))
    * @World (FixedCollection Z) :=
  __init__ (P := FixedCollection Z) tt every Natural 0 0 0 (start docs fs ce).

Definition demo_iterator (total : Z) : @PymongoIterator (FixedCollection Z) :=
  mkIterator (P := FixedCollection Z)
    tt every Natural 0 0 (2 ^ 31) 0 total 0%nat None.

(** The same with a progress interval [dp]. *)
Definition reporting (docs : list Z) (fs : list (option exn)) (dp : Z)
  : outcome (@PymongoIterator (FixedCollection Z))
    * @World (FixedCollection Z) :=
  __init__ (P := FixedCollection Z) tt every Natural 0 0 dp
    (start docs fs None).

Definition reporting_iterator (total dp : Z)
  : @PymongoIterator (FixedCollection Z) :=
  mkIterator (P := FixedCollection Z)
    tt every Natural 0 dp (2 ^ 31) 0 total 0%nat None.

(** Another client replaces the collection's documents. *)
Definition other_client_leaves (docs : list Z)
    (w : @World (FixedCollection Z)) : @World (FixedCollection Z) :=
  mkWorld (P := FixedCollection Z) (with_documents docs (db w)) (trace w).

(** The documents [list(it)] yields, when it ends normally within
    [fuel] calls. *)
Definition yielded {P : Pymongo} (fuel : nat)
    (r : outcome PymongoIterator * World) : option (list Doc) :=
  match r with
  | (Return it, w) =>
      match to_list fuel (it, w) with
      | Some (Return ds, _) => Some ds
      | _ => None
      end
  | _ => None
  end.

(** Unfold a method down to the collaborators' answers. *)
Ltac run :=
  unfold __next__, __reinitialize, __len__, pull, return_doc, try_except,
    bind, ret, raise, self, assign, modify, world, call, print; cbn.

(** * Properties of the class, over any collaborators *)

Lemma exn_eqb_eq (a b : exn) : exn_eqb a b = true <-> a = b.
Proof.
  destruct a, b; simpl; split; intros H; try congruence; try discriminate.
  - apply Nat.eqb_eq in H. congruence.
  - inversion H. apply Nat.eqb_refl.
Qed.

Lemma exn_eqb_neq (a b : exn) : a <> b -> exn_eqb a b = false.
Proof.
  intros H. destruct (exn_eqb a b) eqn:E; [|reflexivity].
  apply exn_eqb_eq in E. contradiction.
Qed.

Lemma geb_true (a b : Z) : b <= a -> (a >=? b) = true.
Proof. intros H. rewrite Z.geb_leb. now apply Z.leb_le. Qed.

Lemma geb_false (a b : Z) : a < b -> (a >=? b) = false.
Proof. intros H. rewrite Z.geb_leb. now apply Z.leb_gt. Qed.

Section Runs.
Context `{P : Pymongo}.
Implicit Types (s : PymongoIterator) (w : World).

(** Line 62 true: one [close], then [StopIteration] unless the close
    itself raised. *)
Lemma next_exhausted s w :
  total_docs s <= i s ->
  __next__ (s, w) =
    (Raise match fst (cursor_close (cursor s) (db w)) with
           | Return _ => StopIteration
           | Raise e => e
           end,
     (s, {| db := snd (cursor_close (cursor s) (db w));
            trace := trace w ++ [EClose (cursor s)] |})).
Proof.
  intros H. run.
  rewrite (geb_true _ _ H); cbn.
  simpl. destruct (cursor_close (cursor s) (db w)) as [[[]|e] d]; reflexivity.
Qed.

Lemma next_closed s w u dbx :
  total_docs s <= i s ->
  cursor_close (cursor s) (db w) = (Return u, dbx) ->
  __next__ (s, w) =
    (Raise StopIteration,
     (s, {| db := dbx; trace := trace w ++ [EClose (cursor s)] |})).
Proof. intros H E. rewrite (next_exhausted _ _ H), E. reflexivity. Qed.

(** The pull of line 66 answered with a document. *)
Lemma next_pulled s w d dbx :
  i s < total_docs s ->
  cursor_next (cursor s) (db w) = (Return d, dbx) ->
  __next__ (s, w) =
    (Return d,
     (incr_i (set_doc d s),
      {| db := dbx;
         trace := (trace w ++ [ENext (cursor s)])
                  ++ progress_events (incr_i (set_doc d s)) |})).
Proof.
  intros H E. run.
  rewrite (geb_false _ _ H); cbn.
  rewrite E. unfold progress_events. simpl.
  destruct (truthy (disp_progress s)); simpl.
  - destruct (_ =? 0); simpl; [reflexivity|]. now rewrite app_nil_r.
  - now rewrite app_nil_r.
Qed.

(** The pull of line 66 raised something the [except] clause does not
    name. *)
Lemma next_failed s w e dbx :
  i s < total_docs s ->
  cursor_next (cursor s) (db w) = (Raise e, dbx) ->
  e <> CursorNotFound ->
  __next__ (s, w) =
    (Raise e, (s, {| db := dbx; trace := trace w ++ [ENext (cursor s)] |})).
Proof.
  intros H E Hne. run.
  rewrite (geb_false _ _ H); cbn.
  rewrite E. now rewrite (exn_eqb_neq _ _ Hne).
Qed.

(** The pull of line 66 raised [CursorNotFound]: lines 72-73. *)
Lemma next_lost s w dbx :
  i s < total_docs s ->
  cursor_next (cursor s) (db w) = (Raise CursorNotFound, dbx) ->
  __next__ (s, w) =
    __reinitialize
      (s, {| db := dbx;
             trace := (trace w ++ [ENext (cursor s)]) ++ [lost_cursor_line] |}).
Proof.
  intros H E. run.
  rewrite (geb_false _ _ H); cbn.
  rewrite E. simpl.
  repeat match goal with
         | |- context [match ?op ?d with _ => _ end] =>
             lazymatch op with
             | find _ _ _ => idtac | cursor_skip _ _ => idtac
             | cursor_limit _ _ => idtac | cursor_next _ => idtac
             end;
             destruct (op d) as [[?|?] ?]; simpl
         end; reflexivity.
Qed.

(** [__reinitialize] stops in one of five places. *)
Lemma reinitialize_run s w :
  exists evs,
    reinit_run s (__reinitialize (s, w)).1 (__reinitialize (s, w)).2.1 evs
    /\ trace (__reinitialize (s, w)).2.2 = trace w ++ evs.
Proof.
  run.
  destruct (find _ _ _ _) as [[c0|e] d0]; cbn;
    [|eexists; split; [apply reinit_find_raises|reflexivity]].
  destruct (cursor_skip _ _ _) as [[c1|e] d1]; cbn;
    [|eexists; split; [eapply reinit_skip_raises|];
      rewrite <- app_assoc; reflexivity].
  destruct (cursor_limit _ _ _) as [[c2|e] d2]; cbn;
    [|eexists; split; [eapply reinit_limit_raises|];
      rewrite <- !app_assoc; reflexivity].
  destruct (cursor_next _ _) as [[d|e] d3]; cbn;
    (eexists; split;
     [first [eapply reinit_returns | eapply reinit_pull_raises]|];
     rewrite <- !app_assoc; reflexivity).
Qed.

(** The run of [__reinitialize] in which every call answers. *)
Lemma reinitialize_returns s w c0 db0 c1 db1 c2 db2 d db3 :
  find (collection s) (search_opts s) true (db w) = (Return c0, db0) ->
  cursor_skip c0 (i s + skip s) db0 = (Return c1, db1) ->
  cursor_limit c1 (intermediate_limit s) db1 = (Return c2, db2) ->
  cursor_next c2 db2 = (Return d, db3) ->
  __reinitialize (s, w) =
    (Return d,
     (incr_i (set_cursor c2 s),
      {| db := db3;
         trace := trace w ++
                  [EFind (search_opts s) true; ESkip c0 (i s + skip s);
                   ELimit c1 (intermediate_limit s); ENext c2] |})).
Proof.
  intros E0 E1 E2 E3. run.
  rewrite E0; cbn. rewrite E1; cbn. rewrite E2; cbn. rewrite E3; cbn.
  now rewrite <- !app_assoc.
Qed.

Lemma new_events_app w w' evs :
  trace w' = trace w ++ evs -> new_events w w' = evs.
Proof. intros E. unfold new_events. rewrite E. apply drop_app_length. Qed.

(** What a returning constructor has done. *)
Lemma init_returns coll f o sk lm dp w it w' :
  __init__ coll f o sk lm dp w = (Return it, w') ->
  exists db0 c0 db1 c1 db2 c2 db3 db4,
    count_documents coll f sk (normalize_limit lm) (db w)
      = (Return (total_docs it), db0)
    /\ find coll f true db0 = (Return c0, db1)
    /\ cursor_sort c0 o db1 = (Return c1, db2)
    /\ cursor_skip c1 sk db2 = (Return c2, db3)
    /\ cursor_limit c2 (normalize_limit lm) db3 = (Return (cursor it), db4)
    /\ it = {| collection := coll; search_opts := f; sort_opts := o;
               skip := sk; disp_progress := dp;
               limit := normalize_limit lm; i := 0;
               total_docs := total_docs it; cursor := cursor it;
               doc := None |}
    /\ w' = {| db := db4;
               trace := trace w ++
                 [ECount f sk (normalize_limit lm);
                  EPrint [PStr "Iterating over"; PInt (total_docs it);
                          PStr "documents..."];
                  EFind f true; ESort c0 o; ESkip c1 sk;
                  ELimit c2 (normalize_limit lm)] |}.
Proof.
  unfold __init__, bind, ret, call, print; cbn.
  destruct (count_documents _ _ _ _ _) as [[n|e] d0] eqn:E0; cbn;
    [|discriminate].
  destruct (find _ _ _ _) as [[c0|e] d1] eqn:E1; cbn; [|discriminate].
  destruct (cursor_sort _ _ _) as [[c1|e] d2] eqn:E2; cbn; [|discriminate].
  destruct (cursor_skip _ _ _) as [[c2|e] d3] eqn:E3; cbn; [|discriminate].
  destruct (cursor_limit _ _ _) as [[c3|e] d4] eqn:E4; cbn; [|discriminate].
  intros E. inversion E; subst; clear E. cbn.
  exists d0, c0, d1, c1, d2, c2, d3, d4.
  repeat split; try assumption. now rewrite <- !app_assoc.
Qed.

(** [i] only grows, by one, and only below [total_docs]; [total_docs] is
    never assigned. *)
Lemma next_step s w :
  total_docs (__next__ (s, w)).2.1 = total_docs s
  /\ (i (__next__ (s, w)).2.1 = i s
      \/ i s < total_docs s /\ i (__next__ (s, w)).2.1 = i s + 1)
  /\ (forall d, (__next__ (s, w)).1 = Return d ->
        i (__next__ (s, w)).2.1 = i s + 1).
Proof.
  destruct (Z_lt_le_dec (i s) (total_docs s)) as [Hlt|Hge].
  - destruct (cursor_next (cursor s) (db w)) as [[d|e] dbx] eqn:E.
    + rewrite (next_pulled _ _ _ _ Hlt E). cbn. auto.
    + destruct (exn_eqb e CursorNotFound) eqn:Ee.
      * apply exn_eqb_eq in Ee. subst e. rewrite (next_lost _ _ _ Hlt E).
        match goal with |- context [__reinitialize (s, ?wx)] =>
          destruct (reinitialize_run s wx) as (evs & Hr & _);
          destruct (__reinitialize (s, wx)) as [r [s' w']]
        end.
        cbn [fst snd] in *. inversion Hr; subst; cbn; repeat split; auto;
          try (intros ? [=]); right; split; auto.
      * assert (e <> CursorNotFound) as Hne
          by (intros ->; discriminate).
        rewrite (next_failed _ _ _ _ Hlt E Hne). cbn.
        repeat split; auto. intros ? [=].
  - rewrite (next_exhausted _ _ Hge). cbn. repeat split; auto. intros ? [=].
Qed.

Lemma intermediate_limit_eq s :
  intermediate_limit s = if limit s =? 0 then 0 else limit s - i s.
Proof. unfold intermediate_limit, truthy. now destruct (limit s =? 0). Qed.

(** C2.  [__reinitialize], call by call, on an object that has emitted
    [i] documents.  It calls [find]; on the cursor [find] returned it
    calls [skip] with [skip + i]; on the cursor that returned it calls
    [limit] with the remaining count, which is [limit - i] if the stored
    limit is nonzero and 0 otherwise; the cursor that returned is
    installed in [self.cursor] and pulled from once.  A call that raises
    ends the run there with its exception.  Hence every [skip] issued
    carries [skip + i], every [limit] issued carries the remaining count,
    and with a limit of 100 and 40 documents emitted that count is 60. *)
Theorem reinitialize_skip_and_limit s w :
  (forall e db0,
     find (collection s) (search_opts s) true (db w) = (Raise e, db0) ->
     __reinitialize (s, w)
     = (Raise e,
        (s, {| db := db0; trace := trace w ++ [EFind (search_opts s) true] |})))
  /\ (forall c0 db0,
        find (collection s) (search_opts s) true (db w) = (Return c0, db0) ->
        (forall e db1,
           cursor_skip c0 (skip s + i s) db0 = (Raise e, db1) ->
           __reinitialize (s, w)
           = (Raise e,
              (s, {| db := db1;
                     trace := trace w ++
                              [EFind (search_opts s) true;
                               ESkip c0 (skip s + i s)] |})))
        /\ (forall c1 db1,
              cursor_skip c0 (skip s + i s) db0 = (Return c1, db1) ->
              (forall e db2,
                 cursor_limit c1 (if limit s =? 0 then 0 else limit s - i s)
                   db1 = (Raise e, db2) ->
                 __reinitialize (s, w)
                 = (Raise e,
                    (s, {| db := db2;
                           trace := trace w ++
                                    [EFind (search_opts s) true;
                                     ESkip c0 (skip s + i s);
                                     ELimit c1 (if limit s =? 0 then 0
                                                else limit s - i s)] |})))
              /\ (forall c2 db2,
                    cursor_limit c1
                      (if limit s =? 0 then 0 else limit s - i s) db1
                    = (Return c2, db2) ->
                    cursor (__reinitialize (s, w)).2.1 = c2
                    /\ (__reinitialize (s, w)).2.1
                       = match (cursor_next c2 db2).1 with
                         | Return _ => incr_i (set_cursor c2 s)
                         | Raise _ => set_cursor c2 s
                         end
                    /\ (__reinitialize (s, w)).1 = (cursor_next c2 db2).1
                    /\ db (__reinitialize (s, w)).2.2 = (cursor_next c2 db2).2
                    /\ trace (__reinitialize (s, w)).2.2
                       = trace w ++
                         [EFind (search_opts s) true;
                          ESkip c0 (skip s + i s);
                          ELimit c1 (if limit s =? 0 then 0
                                     else limit s - i s);
                          ENext c2])))
  /\ (exists evs,
        trace (__reinitialize (s, w)).2.2 = trace w ++ evs
        /\ (forall c n, In (ESkip c n) evs -> n = skip s + i s)
        /\ (forall c n, In (ELimit c n) evs ->
              n = if limit s =? 0 then 0 else limit s - i s)
        /\ (forall d, (__reinitialize (s, w)).1 = Return d ->
              exists c0 c1,
                evs = [EFind (search_opts s) true;
                       ESkip c0 (skip s + i s);
                       ELimit c1 (if limit s =? 0 then 0
                                  else limit s - i s);
                       ENext (cursor (__reinitialize (s, w)).2.1)])
        /\ (limit s = 100 -> i s = 40 ->
              forall c n, In (ELimit c n) evs -> n = 60))
  /\ (limit s = 100 -> i s = 40 ->
      (if limit s =? 0 then 0 else limit s - i s) = 60).
Proof.
  rewrite <- intermediate_limit_eq, (Z.add_comm (skip s)).
  split; [|split; [|split]].
  - intros e db0 E0. run. now rewrite E0.
  - intros c0 db0 E0. split.
    + intros e db1 E1. run. rewrite E0; cbn. rewrite E1; cbn.
      now rewrite <- app_assoc.
    + intros c1 db1 E1. split.
      * intros e db2 E2. run. rewrite E0; cbn. rewrite E1; cbn.
        rewrite E2; cbn. now rewrite <- !app_assoc.
      * intros c2 db2 E2. run. rewrite E0; cbn. rewrite E1; cbn.
        rewrite E2; cbn.
        destruct (cursor_next c2 db2) as [[d|e] db3]; cbn;
          rewrite <- !app_assoc; repeat split.
  - destruct (reinitialize_run s w) as (evs & Hr & Ht).
    exists evs. split; [exact Ht|].
    destruct (__reinitialize (s, w)) as [r [s' w']]. cbn [fst snd] in *.
    assert (forall c n, In (ELimit c n) evs -> n = intermediate_limit s)
      as HL.
    { intros c n Hin. inversion Hr; subst; cbn in Hin;
        intuition (try discriminate; congruence). }
    repeat split.
    + intros c n Hin.
      inversion Hr; subst; cbn in Hin;
        intuition (try discriminate; congruence).
    + exact HL.
    + intros d ->. inversion Hr; subst. now exists c0, c1.
    + intros H100 H40 c n Hin. rewrite (HL c n Hin), intermediate_limit_eq.
      rewrite H100, H40. reflexivity.
  - intros H100 H40. rewrite intermediate_limit_eq, H100, H40. reflexivity.
Qed.



(** C5.  [__reinitialize] never calls [sort]: the calls it makes are a
    [find], a [skip], a [limit] and a pull, while the constructor did call
    [sort] with [sort_opts] on the cursor it opened. *)
Theorem reinitialize_does_not_sort s w :
  List.filter is_sort (new_events w (__reinitialize (s, w)).2.2) = []
  /\ (forall d, (__reinitialize (s, w)).1 = Return d ->
        exists c0 c1,
          new_events w (__reinitialize (s, w)).2.2 =
            [EFind (search_opts s) true; ESkip c0 (i s + skip s);
             ELimit c1 (intermediate_limit s);
             ENext (cursor (__reinitialize (s, w)).2.1)])
  /\ (forall coll f o sk lm dp w0 it w1,
        __init__ coll f o sk lm dp w0 = (Return it, w1) ->
        sort_opts it = o
        /\ exists c0, List.filter is_sort (new_events w0 w1) = [ESort c0 o]).
Proof.
  destruct (reinitialize_run s w) as (evs & Hr & Ht).
  rewrite (new_events_app _ _ _ Ht).
  destruct (__reinitialize (s, w)) as [r [s' w']]. cbn [fst snd] in *.
  repeat split.
  - inversion Hr; reflexivity.
  - intros d ->. inversion Hr; subst. now exists c0, c1.
  - apply init_returns in H as (?&?&?&?&?&?&?&?&_&_&_&_&_&Hit&_).
    now rewrite Hit.
  - apply init_returns in H as (?&c0&?&?&?&?&?&?&_&_&_&_&_&_&Hw).
    exists c0. rewrite (new_events_app w0 w1 _ (f_equal trace Hw)).
    reflexivity.
Qed.

Lemma filter_find_progress s :
  List.filter is_find (progress_events s) = [].
Proof.
  unfold progress_events.
  destruct (truthy _); [destruct (_ =? 0)|]; reflexivity.
Qed.

Lemma filter_count_progress s :
  List.filter is_count (progress_events s) = [].
Proof.
  unfold progress_events.
  destruct (truthy _); [destruct (_ =? 0)|]; reflexivity.
Qed.

(** The calls of one [__next__], by the four ways it can go. *)
Lemma next_events s w :
  (total_docs s <= i s
   /\ new_events w (__next__ (s, w)).2.2 = [EClose (cursor s)])
  \/ (i s < total_docs s
      /\ exists evs,
           List.filter is_find evs = [] /\ List.filter is_count evs = []
           /\ new_events w (__next__ (s, w)).2.2 = ENext (cursor s) :: evs
           /\ (cursor_next (cursor s) (db w)).1 <> Raise CursorNotFound)
  \/ (i s < total_docs s
      /\ (cursor_next (cursor s) (db w)).1 = Raise CursorNotFound
      /\ exists evs,
           List.filter is_count evs = []
           /\ new_events w (__next__ (s, w)).2.2
              = ENext (cursor s) :: lost_cursor_line :: evs).
Proof.
  destruct (Z_lt_le_dec (i s) (total_docs s)) as [Hlt|Hge].
  - right.
    destruct (cursor_next (cursor s) (db w)) as [[d|e] dbx] eqn:E.
    + left. split; [assumption|]. rewrite (next_pulled _ _ _ _ Hlt E).
      eexists. split; [apply filter_find_progress|].
      split; [apply filter_count_progress|].
      split; [|discriminate].
      apply new_events_app. cbn. now rewrite <- app_assoc.
    + destruct (exn_eqb e CursorNotFound) eqn:Ee.
      * apply exn_eqb_eq in Ee. subst e. right.
        split; [assumption|]. split; [reflexivity|].
        rewrite (next_lost _ _ _ Hlt E).
        match goal with |- context [__reinitialize (s, ?wx)] =>
          destruct (reinitialize_run s wx) as (evs & Hr & Ht);
          destruct (__reinitialize (s, wx)) as [r [s' w']]
        end.
        cbn [fst snd trace] in *. exists evs. split.
        { inversion Hr; reflexivity. }
        apply new_events_app. rewrite Ht. now rewrite <- !app_assoc.
      * assert (e <> CursorNotFound) as Hne by (intros ->; discriminate).
        left. split; [assumption|].
        rewrite (next_failed _ _ _ _ Hlt E Hne). exists [].
        repeat split; try reflexivity.
        -- now apply new_events_app.
        -- cbn. congruence.
  - left. split; [assumption|]. rewrite (next_exhausted _ _ Hge).
    now apply new_events_app.
Qed.

(** C6.  A pull that raises anything but [CursorNotFound] makes
    [__next__] raise the same exception, after that single call, with the
    object as it was ([i] and the cursor included); and whenever a
    [__next__] issues a [find], its pull had raised [CursorNotFound]. *)
Theorem other_errors_propagate s w e dbx :
  i s < total_docs s ->
  cursor_next (cursor s) (db w) = (Raise e, dbx) ->
  e <> CursorNotFound ->
  __next__ (s, w) =
    (Raise e, (s, {| db := dbx; trace := trace w ++ [ENext (cursor s)] |}))
  /\ new_events w (__next__ (s, w)).2.2 = [ENext (cursor s)]
  /\ (forall s0 w0,
        List.filter is_find (new_events w0 (__next__ (s0, w0)).2.2) <> [] ->
        (cursor_next (cursor s0) (db w0)).1 = Raise CursorNotFound).
Proof.
  intros Hlt E Hne. rewrite (next_failed _ _ _ _ Hlt E Hne).
  split; [reflexivity|]. split; [now apply new_events_app|].
  intros s0 w0 Hf.
  destruct (next_events s0 w0)
    as [[_ Hev]|[(_ & evs & Hfe & _ & Hev & _)|(_ & Hl & _)]].
  - rewrite Hev in Hf. now contradiction Hf.
  - rewrite Hev in Hf. cbn in Hf. now rewrite Hfe in Hf.
  - exact Hl.
Qed.

(** C7, as the code has it.  With [i >= total_docs], [__next__] calls
    [close] on the cursor and nothing else; if the close returns it raises
    [StopIteration], and if the close raises, that exception is what
    [__next__] raises.  The object is unchanged either way. *)
Theorem exhausted_closes_then_stops s w :
  total_docs s <= i s ->
  (__next__ (s, w)).2.1 = s
  /\ new_events w (__next__ (s, w)).2.2 = [EClose (cursor s)]
  /\ db (__next__ (s, w)).2.2 = (cursor_close (cursor s) (db w)).2
  /\ (forall u, (cursor_close (cursor s) (db w)).1 = Return u ->
        (__next__ (s, w)).1 = Raise StopIteration)
  /\ (forall e, (cursor_close (cursor s) (db w)).1 = Raise e ->
        (__next__ (s, w)).1 = Raise e).
Proof.
  intros Hge. rewrite (next_exhausted _ _ Hge). cbn [fst snd db].
  repeat split.
  - now apply new_events_app.
  - intros u ->. reflexivity.
  - intros e ->. reflexivity.
Qed.

Lemma advance_n_total_docs n (x : Obj) :
  total_docs (advance_n n x).1 = total_docs x.1.
Proof.
  revert x. induction n as [|n IH]; intros [s w]; [reflexivity|].
  cbn [advance_n]. rewrite IH. apply next_step.
Qed.

(** C9.  [__len__] returns [total_docs] and leaves the object and the
    world as they are, it cannot raise; no [__next__] issues a count or
    changes [total_docs], so after any number of calls of [__next__],
    however they ended, [__len__] still returns the count stored by the
    constructor. *)
Theorem len_is_total_docs_forever :
  (forall x : Obj, __len__ x = (Return (total_docs x.1), x))
  /\ (forall s w,
        total_docs (__next__ (s, w)).2.1 = total_docs s
        /\ List.filter is_count (new_events w (__next__ (s, w)).2.2) = [])
  /\ (forall n (x : Obj),
        __len__ (advance_n n x) = (Return (total_docs x.1), advance_n n x))
  /\ (forall coll f o sk lm dp w0 it w1 n,
        __init__ coll f o sk lm dp w0 = (Return it, w1) ->
        (exists dbx,
            count_documents coll f sk (normalize_limit lm) (db w0)
            = (Return (total_docs it), dbx))
        /\ (__len__ (it, w1)).1 = Return (total_docs it)
        /\ (__len__ (advance_n n (it, w1))).1 = Return (total_docs it)).
Proof.
  assert (forall x : Obj, __len__ x = (Return (total_docs x.1), x)) as Hlen
    by (intros [s w]; reflexivity).
  split; [exact Hlen|]. split; [|split].
  - intros s w. split; [apply next_step|].
    destruct (next_events s w)
      as [[_ Hev]|[(_ & evs & _ & Hc & Hev & _)|(_ & _ & evs & Hc & Hev)]];
      rewrite Hev; cbn; try rewrite Hc; reflexivity.
  - intros n x. rewrite Hlen. now rewrite advance_n_total_docs.
  - intros coll f o sk lm dp w0 it w1 n H. split; [|split].
    + apply init_returns in H as (dbx&?&?&?&?&?&?&?&Hc&_). now exists dbx.
    + now rewrite Hlen.
    + rewrite Hlen. now rewrite advance_n_total_docs.
Qed.

(** C10.  A cursor that raises [StopIteration] while [i < total_docs]
    ends the iteration there: [__next__] raises [StopIteration] after
    that single pull, without a [find], without a [close], and with [i]
    and the cursor as they were. *)
Theorem cursor_end_propagates s w dbx :
  i s < total_docs s ->
  cursor_next (cursor s) (db w) = (Raise StopIteration, dbx) ->
  __next__ (s, w) =
    (Raise StopIteration,
     (s, {| db := dbx; trace := trace w ++ [ENext (cursor s)] |}))
  /\ new_events w (__next__ (s, w)).2.2 = [ENext (cursor s)]
  /\ List.filter is_close (new_events w (__next__ (s, w)).2.2) = []
  /\ List.filter is_find (new_events w (__next__ (s, w)).2.2) = []
  /\ i (__next__ (s, w)).2.1 < total_docs (__next__ (s, w)).2.1.
Proof.
  intros Hlt E.
  assert (StopIteration <> CursorNotFound) as Hne by discriminate.
  rewrite (next_failed _ _ _ _ Hlt E Hne). cbn [fst snd].
  assert (new_events w {| db := dbx; trace := trace w ++ [ENext (cursor s)] |}
          = [ENext (cursor s)]) as -> by now apply new_events_app.
  repeat split; try reflexivity. exact Hlt.
Qed.

(** C4, as the code has it.  A limit of 0 becomes [2 ^ 31], which is
    [int32_max + 1] and so outside the 32-bit signed range; any other
    limit is kept.  The constructor's first call is the count, issued
    with the filter, the skip and the normalized limit, and a
    constructor that returns has stored that limit and the count's
    answer. *)
Theorem limit_zero_becomes_two_pow_31 :
  normalize_limit 0 = 2147483648
  /\ normalize_limit 0 = int32_max + 1
  /\ fits_int32 (normalize_limit 0) = false
  /\ (forall lm, lm <> 0 -> normalize_limit lm = lm)
  /\ (forall coll f o sk lm dp w,
        exists evs,
          trace (__init__ coll f o sk lm dp w).2
          = trace w ++ ECount f sk (normalize_limit lm) :: evs)
  /\ (forall coll f o sk lm dp w it w',
        __init__ coll f o sk lm dp w = (Return it, w') ->
        limit it = normalize_limit lm
        /\ exists dbx,
            count_documents coll f sk (normalize_limit lm) (db w)
            = (Return (total_docs it), dbx)).
Proof.
  repeat split; try reflexivity.
  - intros lm Hlm. unfold normalize_limit.
    destruct (lm =? 0) eqn:E; [|reflexivity].
    apply Z.eqb_eq in E. contradiction.
  - intros coll f o sk lm dp w.
    unfold __init__, bind, ret, call, print; cbn.
    destruct (count_documents _ _ _ _ _) as [[n|e] d0]; cbn;
      [|now exists []].
    destruct (find _ _ _ _) as [[c0|e] d1]; cbn;
      [|eexists; rewrite <- !app_assoc; reflexivity].
    destruct (cursor_sort _ _ _) as [[c1|e] d2]; cbn;
      [|eexists; rewrite <- !app_assoc; reflexivity].
    destruct (cursor_skip _ _ _) as [[c2|e] d3]; cbn;
      [|eexists; rewrite <- !app_assoc; reflexivity].
    destruct (cursor_limit _ _ _) as [[c3|e] d4]; cbn;
      eexists; rewrite <- !app_assoc; reflexivity.
  - apply init_returns in H as (?&?&?&?&?&?&?&?&_&_&_&_&_&Hit&_).
    now rewrite Hit.
  - apply init_returns in H as (dbx&?&?&?&?&?&?&?&Hc&_). now exists dbx.
Qed.

(** The 32-bit reading of C4 fails at the constructor's default limit. *)
Lemma limit_zero_exceeds_int32 :
  normalize_limit 0 = 2 ^ 31
  /\ fits_int32 (normalize_limit 0) = false
  /\ ~ (int32_min <= normalize_limit 0 <= int32_max).
Proof.
  repeat split. unfold normalize_limit, int32_min, int32_max. cbn. lia.
Qed.

End Runs.

(** * Further properties, over any collaborators *)

Section Conduct.
Context `{P : Pymongo}.
Implicit Types (s : PymongoIterator) (w : World).

Lemma same_query_refl s : same_query s s.
Proof. repeat split. Qed.

Lemma same_query_trans s1 s2 s3 :
  same_query s1 s2 -> same_query s2 s3 -> same_query s1 s3.
Proof.
  unfold same_query. intros (?&?&?&?&?&?&?) (?&?&?&?&?&?&?).
  repeat split; congruence.
Qed.

(** The object one [__next__] leaves, by the ways the call can go. *)
Lemma next_object s w :
  (__next__ (s, w)).2.1 = s
  \/ (exists d, i s < total_docs s
               /\ (cursor_next (cursor s) (db w)).1 = Return d
               /\ (__next__ (s, w)).2.1 = incr_i (set_doc d s))
  \/ (exists c, i s < total_docs s
               /\ (cursor_next (cursor s) (db w)).1 = Raise CursorNotFound
               /\ ((__next__ (s, w)).2.1 = set_cursor c s
                   \/ (__next__ (s, w)).2.1 = incr_i (set_cursor c s))).
Proof.
  destruct (Z_lt_le_dec (i s) (total_docs s)) as [Hlt|Hge].
  - destruct (cursor_next (cursor s) (db w)) as [[d|e] dbx] eqn:E.
    + right. left. exists d. rewrite (next_pulled _ _ _ _ Hlt E). auto.
    + destruct (exn_eqb e CursorNotFound) eqn:Ee.
      * apply exn_eqb_eq in Ee. subst e. rewrite (next_lost _ _ _ Hlt E).
        match goal with |- context [__reinitialize (s, ?wx)] =>
          destruct (reinitialize_run s wx) as (evs & Hr & _);
          destruct (__reinitialize (s, wx)) as [r [s' w']]
        end.
        cbn [fst snd] in *. inversion Hr; subst; auto;
          right; right; exists c2; auto.
      * assert (e <> CursorNotFound) as Hne by (intros ->; discriminate).
        rewrite (next_failed _ _ _ _ Hlt E Hne). auto.
  - rewrite (next_exhausted _ _ Hge). auto.
Qed.

Lemma next_same_query s w : same_query s (__next__ (s, w)).2.1.
Proof.
  destruct (next_object s w)
    as [->|[(d & _ & _ & ->)|(c & _ & _ & [->| ->])]];
    repeat split.
Qed.

Lemma advance_n_same_query n (x : Obj) : same_query x.1 (advance_n n x).1.
Proof.
  revert x. induction n as [|n IH]; intros [s w]; cbn [advance_n fst].
  - apply same_query_refl.
  - pose proof (next_same_query s w) as H1.
    specialize (IH (__next__ (s, w)).2).
    destruct (__next__ (s, w)) as [r [s' w']]. cbn [fst snd] in *.
    exact (same_query_trans _ _ _ H1 IH).
Qed.

(** X1.  No call of [__next__], however it ends, changes what the
    constructor stored about the query: the collection, the filter, the
    sort order, the skip, the progress interval, the limit and the total
    are the same after any number of calls. *)
Theorem query_is_never_modified n (x : Obj) :
  collection (advance_n n x).1 = collection x.1
  /\ search_opts (advance_n n x).1 = search_opts x.1
  /\ sort_opts (advance_n n x).1 = sort_opts x.1
  /\ skip (advance_n n x).1 = skip x.1
  /\ disp_progress (advance_n n x).1 = disp_progress x.1
  /\ limit (advance_n n x).1 = limit x.1
  /\ total_docs (advance_n n x).1 = total_docs x.1.
Proof.
  revert x. induction n as [|n IH]; intros [s w]; cbn [advance_n fst].
  - repeat split.
  - destruct (next_same_query s w) as (H1&H2&H3&H4&H5&H6&H7).
    specialize (IH (__next__ (s, w)).2).
    destruct (__next__ (s, w)) as [r [s' w']]. cbn [fst snd] in *.
    destruct IH as (I1&I2&I3&I4&I5&I6&I7).
    repeat split; congruence.
Qed.

(** X2.  The [else] branch of lines 82-85 is never taken on an object
    the constructor built: the stored limit is never 0, so at every
    later state the replacement limit is the stored limit minus [i], and
    [2 ^ 31 - i] when the constructor was given no limit. *)
Theorem replacement_limit_is_never_unbounded
    coll f o sk lm dp w it w' n :
  __init__ coll f o sk lm dp w = (Return it, w') ->
  limit (advance_n n (it, w')).1 = normalize_limit lm
  /\ limit (advance_n n (it, w')).1 <> 0
  /\ intermediate_limit (advance_n n (it, w')).1
     = normalize_limit lm - i (advance_n n (it, w')).1
  /\ (lm = 0 ->
      intermediate_limit (advance_n n (it, w')).1
      = 2 ^ 31 - i (advance_n n (it, w')).1).
Proof.
  intros H. apply init_returns in H as (?&?&?&?&?&?&?&?&_&_&_&_&_&Hit&_).
  destruct (advance_n_same_query n (it, w')) as (_&_&_&_&_&Hl&_).
  cbn [fst] in Hl. assert (limit it = normalize_limit lm) as Hlim
    by (rewrite Hit; reflexivity).
  rewrite Hlim in Hl.
  assert (normalize_limit lm <> 0) as Hnz.
  { unfold normalize_limit. destruct (Z.eqb_spec lm 0); [discriminate|auto]. }
  split; [exact Hl|]. split; [congruence|].
  assert (intermediate_limit (advance_n n (it, w')).1
          = normalize_limit lm - i (advance_n n (it, w')).1) as Hil.
  { rewrite intermediate_limit_eq, Hl.
    destruct (Z.eqb_spec (normalize_limit lm) 0); [contradiction|reflexivity]. }
  split; [exact Hil|]. intros ->. exact Hil.
Qed.

(** A call that raises leaves [i] as it was. *)
Lemma next_raise_keeps_i s w e :
  (__next__ (s, w)).1 = Raise e -> i (__next__ (s, w)).2.1 = i s.
Proof.
  revert e. destruct (Z_lt_le_dec (i s) (total_docs s)) as [Hlt|Hge].
  - destruct (cursor_next (cursor s) (db w)) as [[d|e0] dbx] eqn:E.
    + rewrite (next_pulled _ _ _ _ Hlt E). cbn. discriminate.
    + destruct (exn_eqb e0 CursorNotFound) eqn:Ee.
      * apply exn_eqb_eq in Ee. subst e0. rewrite (next_lost _ _ _ Hlt E).
        match goal with |- context [__reinitialize (s, ?wx)] =>
          destruct (reinitialize_run s wx) as (evs & Hr & _);
          destruct (__reinitialize (s, wx)) as [r [s' w']]
        end.
        cbn [fst snd] in *. intros e ->. inversion Hr; reflexivity.
      * assert (e0 <> CursorNotFound) as Hne by (intros ->; discriminate).
        rewrite (next_failed _ _ _ _ Hlt E Hne). reflexivity.
  - rewrite (next_exhausted _ _ Hge). reflexivity.
Qed.

(** X3.  [i] counts the documents handed to the caller, whatever the
    collaborators do: a call that returns a document adds exactly 1 to
    [i], a call that raises leaves [i] as it was, and [i <= total_docs]
    is kept. *)
Theorem i_counts_returned_documents s w :
  (forall d, (__next__ (s, w)).1 = Return d ->
     i (__next__ (s, w)).2.1 = i s + 1)
  /\ (forall e, (__next__ (s, w)).1 = Raise e ->
        i (__next__ (s, w)).2.1 = i s)
  /\ (i s <= total_docs s ->
      i (__next__ (s, w)).2.1 <= total_docs (__next__ (s, w)).2.1).
Proof.
  destruct (next_step s w) as (Ht & Hi & Hr).
  split; [exact Hr|]. split; [apply next_raise_keeps_i|].
  intros Hle. rewrite Ht. destruct Hi as [->|[Hlt ->]]; lia.
Qed.

Lemma to_list_counts_aux fuel :
  forall (x : Obj) ds x',
    to_list fuel x = Some (Return ds, x') ->
    i x'.1 = i x.1 + Z.of_nat (length ds)
    /\ total_docs x'.1 = total_docs x.1
    /\ (i x.1 <= total_docs x.1 -> i x'.1 <= total_docs x.1).
Proof.
  induction fuel as [|fuel IH]; intros [s w] ds x'; cbn [to_list];
    [discriminate|].
  destruct (next_step s w) as (Ht & Hi & Hr).
  pose proof (next_raise_keeps_i s w) as He.
  destruct (__next__ (s, w)) as [[d|e] [s1 w1]]; cbn [fst snd] in *.
  - specialize (Hr d eq_refl).
    destruct (to_list fuel (s1, w1)) as [[[ds1|e1] x1]|] eqn:E;
      try discriminate.
    intros [= <- <-]. destruct (IH _ _ _ E) as (Hi1 & Ht1 & Hb1).
    cbn [fst snd length] in *. repeat split; try lia; congruence.
  - specialize (He e eq_refl). destruct e; try discriminate.
    intros [= <- <-]. cbn [fst length]. repeat split; try lia; congruence.
Qed.

(** X4.  Whatever the collaborators do (a collection that grows, a
    cursor that delivers too much), a [list(it)] that ends normally has
    yielded exactly as many documents as [i] has grown, and from a state
    with [i <= total_docs] never more than [total_docs - i]. *)
Theorem list_never_exceeds_total fuel (x : Obj) ds x' :
  to_list fuel x = Some (Return ds, x') ->
  i x'.1 = i x.1 + Z.of_nat (length ds)
  /\ total_docs x'.1 = total_docs x.1
  /\ (i x.1 <= total_docs x.1 ->
      Z.of_nat (length ds) <= total_docs x.1 - i x.1).
Proof.
  intros H. destruct (to_list_counts_aux fuel x ds x' H) as (Hi & Ht & Hb).
  split; [exact Hi|]. split; [exact Ht|]. intros Hle. specialize (Hb Hle). lia.
Qed.

(** X5.  Once [i >= total_docs] the iterator stays where it is: each
    further call of [__next__] leaves the object unchanged, never pulls
    and never opens a cursor, but calls [close] on the same cursor again,
    so [n] calls add exactly [n] closes to the trace; and a [list(it)]
    on it yields nothing, as long as the close returns. *)
Theorem exhausted_stays_exhausted n s w :
  total_docs s <= i s ->
  (advance_n n (s, w)).1 = s
  /\ new_events w (advance_n n (s, w)).2 = replicate n (EClose (cursor s))
  /\ (forall u dbx fuel,
        cursor_close (cursor s) (db w) = (Return u, dbx) ->
        to_list (S fuel) (s, w)
        = Some (Return [],
                (s, {| db := dbx;
                       trace := trace w ++ [EClose (cursor s)] |}))).
Proof.
  intros Hge.
  assert (forall w0, (advance_n n (s, w0)).1 = s
                     /\ trace (advance_n n (s, w0)).2
                        = trace w0 ++ replicate n (EClose (cursor s))) as H.
  { induction n as [|n IH]; intros w0; cbn [advance_n replicate].
    - split; [reflexivity|]. now rewrite app_nil_r.
    - rewrite (next_exhausted _ _ Hge). cbn [snd].
      destruct (IH {| db := (cursor_close (cursor s) (db w0)).2;
                      trace := trace w0 ++ [EClose (cursor s)] |})
        as (H1 & H2).
      split; [exact H1|]. rewrite H2. cbn [trace].
      now rewrite <- app_assoc. }
  destruct (H w) as (H1 & H2). split; [exact H1|].
  split; [now apply new_events_app|].
  intros u dbx fuel E. cbn [to_list].
  now rewrite (next_closed _ _ _ _ Hge E).
Qed.

Lemma in_progress_events s ev :
  In ev (progress_events s) -> is_print ev = true.
Proof.
  unfold progress_events.
  destruct (truthy _); [destruct (_ =? 0)|]; cbn; intuition; subst; reflexivity.
Qed.

(** X6.  Every [find] the class issues, in the constructor or in a
    recovery, is for the stored filter and asks for a cursor without
    idle timeout ([no_cursor_timeout=True]). *)
Theorem every_find_disables_the_timeout :
  (forall coll f o sk lm dp w f' b,
     In (EFind f' b) (new_events w (__init__ coll f o sk lm dp w).2) ->
     f' = f /\ b = true)
  /\ (forall s w f' b,
        In (EFind f' b) (new_events w (__next__ (s, w)).2.2) ->
        f' = search_opts s /\ b = true).
Proof.
  split.
  - intros coll f o sk lm dp w f' b.
    assert (exists evs,
               trace (__init__ coll f o sk lm dp w).2 = trace w ++ evs
               /\ forall f' b, In (EFind f' b) evs -> f' = f /\ b = true)
      as (evs & Ht & Hin).
    { unfold __init__, bind, ret, call, print; cbn.
      destruct (count_documents _ _ _ _ _) as [[n|e] d0]; cbn;
        [|eexists; split; [reflexivity|]; cbn; intuition congruence].
      destruct (find _ _ _ _) as [[c0|e] d1]; cbn;
        [|eexists; split; [rewrite <- !app_assoc; reflexivity|];
          cbn; intuition congruence].
      destruct (cursor_sort _ _ _) as [[c1|e] d2]; cbn;
        [|eexists; split; [rewrite <- !app_assoc; reflexivity|];
          cbn; intuition congruence].
      destruct (cursor_skip _ _ _) as [[c2|e] d3]; cbn;
        [|eexists; split; [rewrite <- !app_assoc; reflexivity|];
          cbn; intuition congruence].
      destruct (cursor_limit _ _ _) as [[c3|e] d4]; cbn;
        (eexists; split; [rewrite <- !app_assoc; reflexivity|];
         cbn; intuition congruence). }
    rewrite (new_events_app _ _ _ Ht). apply Hin.
  - intros s w f' b.
    destruct (Z_lt_le_dec (i s) (total_docs s)) as [Hlt|Hge].
    + destruct (cursor_next (cursor s) (db w)) as [[d|e] dbx] eqn:E.
      * rewrite (next_pulled _ _ _ _ Hlt E). cbn [fst snd].
        erewrite new_events_app by (cbn [trace]; rewrite <- app_assoc;
                                    reflexivity).
        cbn. intros [[=]|Hin]. apply in_progress_events in Hin. discriminate.
      * destruct (exn_eqb e CursorNotFound) eqn:Ee.
        -- apply exn_eqb_eq in Ee. subst e. rewrite (next_lost _ _ _ Hlt E).
           match goal with |- context [__reinitialize (s, ?wx)] =>
             destruct (reinitialize_run s wx) as (evs & Hr & Ht);
             destruct (__reinitialize (s, wx)) as [r [s' w']]
           end.
           cbn [fst snd trace] in *.
           erewrite new_events_app
             by (rewrite Ht, <- !app_assoc; reflexivity).
           unfold lost_cursor_line.
           inversion Hr; subst; cbn; intuition congruence.
        -- assert (e <> CursorNotFound) as Hne by (intros ->; discriminate).
           rewrite (next_failed _ _ _ _ Hlt E Hne). cbn [fst snd].
           erewrite new_events_app by reflexivity.
           cbn. intuition congruence.
    + rewrite (next_exhausted _ _ Hge). cbn [fst snd].
      erewrite new_events_app by reflexivity. cbn. intuition congruence.
Qed.

(** The run of [__reinitialize] in which the single pull raises. *)
Lemma reinitialize_pull_raises s w c0 db0 c1 db1 c2 db2 e db3 :
  find (collection s) (search_opts s) true (db w) = (Return c0, db0) ->
  cursor_skip c0 (i s + skip s) db0 = (Return c1, db1) ->
  cursor_limit c1 (intermediate_limit s) db1 = (Return c2, db2) ->
  cursor_next c2 db2 = (Raise e, db3) ->
  __reinitialize (s, w) =
    (Raise e,
     (set_cursor c2 s,
      {| db := db3;
         trace := trace w ++
                  [EFind (search_opts s) true; ESkip c0 (i s + skip s);
                   ELimit c1 (intermediate_limit s); ENext c2] |})).
Proof.
  intros E0 E1 E2 E3. run.
  rewrite E0; cbn. rewrite E1; cbn. rewrite E2; cbn. rewrite E3; cbn.
  now rewrite <- !app_assoc.
Qed.

(** X7.  Recovery is attempted once per call.  If the single pull on the
    replacement cursor raises, whatever it raises and be it
    [CursorNotFound] again, [__next__] raises that exception: no second
    [find] is issued, [i] and [doc] are as they were, and the
    replacement cursor is already installed in [self.cursor]. *)
Theorem second_loss_is_not_recovered s w db0 c0 db1 c1 db2 c2 db3 e db4 :
  i s < total_docs s ->
  cursor_next (cursor s) (db w) = (Raise CursorNotFound, db0) ->
  find (collection s) (search_opts s) true db0 = (Return c0, db1) ->
  cursor_skip c0 (i s + skip s) db1 = (Return c1, db2) ->
  cursor_limit c1 (intermediate_limit s) db2 = (Return c2, db3) ->
  cursor_next c2 db3 = (Raise e, db4) ->
  (__next__ (s, w)).1 = Raise e
  /\ (__next__ (s, w)).2.1 = set_cursor c2 s
  /\ i (__next__ (s, w)).2.1 = i s
  /\ cursor (__next__ (s, w)).2.1 = c2
  /\ new_events w (__next__ (s, w)).2.2 =
       [ENext (cursor s); lost_cursor_line; EFind (search_opts s) true;
        ESkip c0 (i s + skip s); ELimit c1 (intermediate_limit s); ENext c2].
Proof.
  intros Hlt E0 E1 E2 E3 E4.
  rewrite (next_lost _ _ _ Hlt E0).
  erewrite (reinitialize_pull_raises s _ c0 db1 c1 db2 c2 db3 e db4);
    [|eassumption..].
  cbn [fst snd trace db].
  repeat split. apply new_events_app. cbn. now rewrite <- !app_assoc.
Qed.

(** X8.  A pull that answers: [__next__] returns the document, stores it
    in [self.doc], adds 1 to [i], keeps the cursor, and prints the
    progress line exactly when [disp_progress] is nonzero and divides the
    new [i]. *)
Theorem pull_returns_and_reports s w d dbx :
  i s < total_docs s ->
  cursor_next (cursor s) (db w) = (Return d, dbx) ->
  (__next__ (s, w)).1 = Return d
  /\ doc (__next__ (s, w)).2.1 = Some d
  /\ i (__next__ (s, w)).2.1 = i s + 1
  /\ cursor (__next__ (s, w)).2.1 = cursor s
  /\ db (__next__ (s, w)).2.2 = dbx
  /\ new_events w (__next__ (s, w)).2.2 =
       ENext (cursor s)
       :: (if negb (disp_progress s =? 0)
              && ((i s + 1) mod disp_progress s =? 0)
           then [EPrint [PStr "Parsing doc"; PInt (i s + 1); PStr "of";
                         PInt (total_docs s)]]
           else []).
Proof.
  intros Hlt E. rewrite (next_pulled _ _ _ _ Hlt E). cbn [fst snd db].
  repeat split.
  apply new_events_app. cbn [trace]. rewrite <- app_assoc. cbn [app].
  do 2 f_equal. unfold progress_events, truthy. cbn.
  destruct (disp_progress s =? 0); cbn; [reflexivity|].
  destruct (_ =? 0); reflexivity.
Qed.

(** X9.  On the recovery path, however the recovery ends, [self.doc] is
    not assigned (it still holds the document of the last ordinary pull)
    and the only line printed is the lost-cursor message: the progress
    line is never printed for a recovered document. *)
Theorem recovery_skips_doc_and_progress s w dbx :
  i s < total_docs s ->
  cursor_next (cursor s) (db w) = (Raise CursorNotFound, dbx) ->
  doc (__next__ (s, w)).2.1 = doc s
  /\ List.filter is_print (new_events w (__next__ (s, w)).2.2)
     = [lost_cursor_line].
Proof.
  intros Hlt E. rewrite (next_lost _ _ _ Hlt E).
  match goal with |- context [__reinitialize (s, ?wx)] =>
    destruct (reinitialize_run s wx) as (evs & Hr & Ht);
    destruct (__reinitialize (s, wx)) as [r [s' w']]
  end.
  cbn [fst snd trace] in *.
  erewrite new_events_app by (rewrite Ht, <- !app_assoc; reflexivity).
  inversion Hr; subst; split; reflexivity.
Qed.

(** X10.  A constructor that raises has made no pull and at most one
    [find], and its first call was the count; if it is the count that
    raised, the constructor raises that exception at once, with nothing
    printed and no cursor opened. *)
Theorem constructor_failure coll f o sk lm dp w e w' :
  __init__ coll f o sk lm dp w = (Raise e, w') ->
  List.filter is_next (new_events w w') = []
  /\ (length (List.filter is_find (new_events w w')) <= 1)%nat
  /\ (exists evs, new_events w w' = ECount f sk (normalize_limit lm) :: evs)
  /\ (forall e' dbx,
        count_documents coll f sk (normalize_limit lm) (db w)
        = (Raise e', dbx) ->
        e = e'
        /\ w' = {| db := dbx;
                   trace := trace w ++ [ECount f sk (normalize_limit lm)] |}).
Proof.
  unfold __init__, bind, ret, call, print; cbn.
  destruct (count_documents _ _ _ _ _) as [[n|e0] d0]; cbn.
  - destruct (find _ _ _ _) as [[c0|e1] d1]; cbn;
      [|intros [= <- <-];
        erewrite new_events_app
          by (cbn [trace]; rewrite <- !app_assoc; reflexivity);
        cbn; repeat split; eauto; discriminate].
    destruct (cursor_sort _ _ _) as [[c1|e2] d2]; cbn;
      [|intros [= <- <-];
        erewrite new_events_app
          by (cbn [trace]; rewrite <- !app_assoc; reflexivity);
        cbn; repeat split; eauto; discriminate].
    destruct (cursor_skip _ _ _) as [[c2|e3] d3]; cbn;
      [|intros [= <- <-];
        erewrite new_events_app
          by (cbn [trace]; rewrite <- !app_assoc; reflexivity);
        cbn; repeat split; eauto; discriminate].
    destruct (cursor_limit _ _ _) as [[c3|e4] d4]; cbn;
      [discriminate|].
    intros [= <- <-].
    erewrite new_events_app
      by (cbn [trace]; rewrite <- !app_assoc; reflexivity).
    cbn; repeat split; eauto; discriminate.
  - intros [= <- <-]. erewrite new_events_app by reflexivity.
    cbn. repeat split; eauto; congruence.
Qed.

(** X14.  A constructor that returns has made exactly six calls, in this
    order: the count, the message with the total, [find] for the filter
    without idle timeout, then [sort(sort_opts)], [skip(skip)] and
    [limit] with the normalized limit, each on the cursor the call
    before returned; the last cursor is the one stored, [i] is 0 and
    [doc] is unset. *)
Theorem constructor_opens_the_cursor coll f o sk lm dp w it w' :
  __init__ coll f o sk lm dp w = (Return it, w') ->
  exists c0 c1 c2,
    new_events w w' =
      [ECount f sk (normalize_limit lm);
       EPrint [PStr "Iterating over"; PInt (total_docs it);
               PStr "documents..."];
       EFind f true; ESort c0 o; ESkip c1 sk;
       ELimit c2 (normalize_limit lm)]
    /\ (exists db0 db1 db2 db3,
          find coll f true db0 = (Return c0, db1)
          /\ cursor_sort c0 o db1 = (Return c1, db2)
          /\ cursor_skip c1 sk db2 = (Return c2, db3)
          /\ cursor_limit c2 (normalize_limit lm) db3
             = (Return (cursor it), db w'))
    /\ i it = 0 /\ doc it = None
    /\ collection it = coll /\ search_opts it = f /\ sort_opts it = o
    /\ skip it = sk /\ disp_progress it = dp.
Proof.
  intros H.
  apply init_returns in H
    as (db0&c0&db1&c1&db2&c2&db3&db4&_&E1&E2&E3&E4&Hit&Hw).
  exists c0, c1, c2. split.
  { apply new_events_app. rewrite Hw. reflexivity. }
  split.
  { exists db0, db1, db2, db3. rewrite Hw. cbn [db]. auto. }
  rewrite Hit. cbn. repeat split.
Qed.


End Conduct.

(** * The class against a fixed collection *)


Section FixedFacts.
Context {D : Type}.
Implicit Types (l docs : list D) (cs : CursorState D) (srv : Server D).

Lemma takeZ_take n l : takeZ n l = take (Z.to_nat n) l.
Proof.
  revert n. induction l as [|x l IH]; intros n; cbn.
  - now destruct (Z.to_nat n).
  - destruct (Z.leb_spec n 0) as [Hn|Hn].
    + now replace (Z.to_nat n) with 0%nat by lia.
    + replace (Z.to_nat n) with (S (Z.to_nat (n - 1))) by lia.
      cbn. now rewrite IH.
Qed.

Lemma dropZ_drop n l : dropZ n l = drop (Z.to_nat n) l.
Proof.
  revert n. induction l as [|x l IH]; intros n; cbn.
  - now destruct (Z.to_nat n).
  - destruct (Z.leb_spec n 0) as [Hn|Hn].
    + now replace (Z.to_nat n) with 0%nat by lia.
    + replace (Z.to_nat n) with (S (Z.to_nat (n - 1))) by lia.
      cbn. now rewrite IH.
Qed.

Lemma length_insert_by leb x l :
  length (insert_by leb x l) = S (length l).
Proof.
  induction l as [|y l IH]; cbn; [reflexivity|].
  destruct (leb x y); cbn; [reflexivity|]. now rewrite IH.
Qed.

Lemma length_sort_by leb l : length (sort_by leb l) = length l.
Proof.
  induction l as [|x l IH]; cbn; [reflexivity|].
  now rewrite length_insert_by, IH.
Qed.

Lemma length_ordered o l : length (ordered o l) = length l.
Proof. destruct o; cbn; [reflexivity|apply length_sort_by]. Qed.

Lemma length_selected f sk lim docs :
  length (selected f sk lim docs)
  = Nat.min (Z.to_nat lim) (length (List.filter f docs) - Z.to_nat sk).
Proof.
  unfold selected. now rewrite takeZ_take, dropZ_drop, length_take, length_drop.
Qed.

(** The cursor the constructor configures delivers as many documents as
    the count reported. *)
Lemma length_first_results f o sk lim docs :
  0 < lim ->
  length (result_set
            {| c_filter := f; c_order := o; c_skip := sk; c_limit := lim;
               c_pos := 0; c_open := true |} docs)
  = length (selected f sk lim docs).
Proof.
  intros Hlim. unfold result_set, limited; cbn.
  destruct (Z.eqb_spec lim 0) as [->|_]; [lia|].
  rewrite length_selected, takeZ_take, dropZ_drop, length_take, length_drop,
    length_ordered.
  now replace (Z.abs lim) with lim by lia.
Qed.

(** The replacement cursor's result set, after [n] documents. *)
Lemma replacement_results f sk lim docs n :
  0 <= sk -> 0 <= n -> n < lim ->
  result_set
    {| c_filter := f; c_order := Natural; c_skip := n + sk;
       c_limit := lim - n; c_pos := 0; c_open := true |} docs
  = drop (Z.to_nat n) (selected f sk lim docs).
Proof.
  intros Hsk Hn Hlim. unfold result_set, limited, selected; cbn.
  destruct (Z.eqb_spec (lim - n) 0) as [E|_]; [lia|].
  rewrite !takeZ_take, !dropZ_drop.
  replace (Z.abs (lim - n)) with (lim - n) by lia.
  replace (Z.to_nat (n + sk)) with (Z.to_nat sk + Z.to_nat n)%nat by lia.
  rewrite <- drop_drop, take_drop_commute.
  now replace (Z.to_nat n + Z.to_nat (lim - n))%nat with (Z.to_nat lim) by lia.
Qed.

Lemma fc_next_delivers srv c cs d :
  cursors srv !! c = Some cs ->
  c_open cs = true ->
  match faults srv with Some _ :: _ => False | _ => True end ->
  result_set cs (documents srv) !! c_pos cs = Some d ->
  fc_next c srv =
    (Return d,
     with_faults (tail (faults srv))
       (with_cursors (<[c := stepped cs]> (cursors srv)) srv)).
Proof.
  intros Hc Ho Hf Hd. unfold fc_next. rewrite Hc, Ho.
  destruct (faults srv) as [|[e|] fs]; [|contradiction|]; now rewrite Hd.
Qed.

Lemma fc_next_raises srv c cs e fs :
  cursors srv !! c = Some cs ->
  c_open cs = true ->
  faults srv = Some e :: fs ->
  fc_next c srv =
    (Raise e,
     with_faults fs (with_cursors (<[c := closed cs]> (cursors srv)) srv)).
Proof. intros Hc Ho Hf. unfold fc_next. now rewrite Hc, Ho, Hf. Qed.

Lemma fc_close_returns srv c cs :
  close_error srv = None ->
  cursors srv !! c = Some cs ->
  fc_close c srv =
    (Return tt, with_cursors (<[c := closed cs]> (cursors srv)) srv).
Proof. intros Hce Hc. unfold fc_close. now rewrite Hce, Hc. Qed.

(** [find(...).skip(k).limit(n)] on the server: one new cursor, in
    natural order, under the next free handle. *)
Lemma fc_reopen srv f k n :
  0 <= k ->
  let c := length (cursors srv) in
  let fresh := {| c_filter := f; c_order := Natural; c_skip := 0;
                  c_limit := 0; c_pos := 0; c_open := true |} in
  let skipped := {| c_filter := f; c_order := Natural; c_skip := k;
                    c_limit := 0; c_pos := 0; c_open := true |} in
  let ready := {| c_filter := f; c_order := Natural; c_skip := k;
                  c_limit := n; c_pos := 0; c_open := true |} in
  fc_find tt f true srv = (Return c, with_cursors (cursors srv ++ [fresh]) srv)
  /\ fc_skip c k (with_cursors (cursors srv ++ [fresh]) srv)
     = (Return c, with_cursors (cursors srv ++ [skipped]) srv)
  /\ fc_limit c n (with_cursors (cursors srv ++ [skipped]) srv)
     = (Return c, with_cursors (cursors srv ++ [ready]) srv).
Proof.
  intros Hk c fresh skipped ready. split; [reflexivity|].
  unfold fc_skip, fc_limit, configure; cbn.
  destruct (Z.ltb_spec k 0) as [?|_]; [lia|].
  rewrite !list_lookup_middle by reflexivity. cbn.
  replace c with (length (cursors srv) + 0)%nat by lia.
  rewrite !insert_app_r. cbn. split; reflexivity.
Qed.

Lemma isolated_losses_tail fs :
  isolated_losses fs = true -> isolated_losses (tail fs) = true.
Proof.
  destruct fs as [|[e|] fs]; cbn; try easy.
  destruct e; try discriminate. destruct fs as [|[?|] ?]; easy.
Qed.

Lemma isolated_losses_cons e fs :
  isolated_losses (Some e :: fs) = true ->
  e = CursorNotFound
  /\ match fs with Some _ :: _ => False | _ => True end
  /\ isolated_losses fs = true.
Proof.
  cbn. destruct e; try discriminate. destruct fs as [|[?|] ?]; easy.
Qed.

Lemma total_le_limit f sk lim docs :
  0 < lim -> Z.of_nat (length (selected f sk lim docs)) <= lim.
Proof. intros H. rewrite length_selected. lia. Qed.

Lemma drop_cons_lookup l n (x : D) l' : drop n l = x :: l' -> l !! n = Some x.
Proof.
  intros E. replace n with (n + 0)%nat by lia.
  rewrite <- lookup_drop, E. reflexivity.
Qed.

Lemma drop_cons_drop l n (x : D) l' : drop n l = x :: l' -> drop (S n) l = l'.
Proof.
  intros E. pose proof (drop_cons_lookup _ _ _ _ E) as Hx.
  rewrite (drop_S _ _ _ Hx) in E. congruence.
Qed.

(** A pull that loses the cursor, below [total_docs]: the replacement
    cursor delivers the document at position [i] of the selection in
    natural order, whatever [sort_opts] is. *)
Lemma healthy_recovery f sk lim docs (x : @Obj (FixedCollection D)) e fs :
  0 <= sk -> 0 < lim ->
  healthy f sk lim docs x ->
  i x.1 < total_docs x.1 ->
  faults (db x.2) = Some e :: fs ->
  exists d,
    (__next__ x).1 = Return d
    /\ healthy f sk lim docs (__next__ x).2
    /\ i (__next__ x).2.1 = i x.1 + 1
    /\ sort_opts (__next__ x).2.1 = sort_opts x.1
    /\ selected f sk lim docs !! Z.to_nat (i x.1) = Some d
    /\ e = CursorNotFound.
Proof.
  intros Hsk Hlim [Hdocs Hclose Hfaults Hf Hskip Hlimit Htotal Hb Hcur] Hlt Ef.
  destruct x as [s w]. cbn [fst snd] in *.
  destruct Hcur as (cs & Hc & Hopen & Hlen & Hnat).
  pose proof (total_le_limit f sk lim docs Hlim) as Hle.
  pose proof (lookup_lt_Some _ _ _ Hc) as Hclt.
  specialize (Hopen Hlt).
  subst f sk lim docs. rewrite Ef in Hfaults.
  apply isolated_losses_cons in Hfaults as (-> & Hfs & Hiso).
  pose proof (fc_next_raises (db w) (cursor s) cs _ _ Hc Hopen Ef) as E0.
  match type of E0 with _ = (_, ?srv) => set (srv1 := srv) in * end.
  assert (intermediate_limit s = limit s - i s) as Hil.
  { rewrite intermediate_limit_eq.
    destruct (Z.eqb_spec (limit s) 0); [lia|reflexivity]. }
  destruct (fc_reopen srv1 (search_opts s) (i s + skip s) (limit s - i s)
              ltac:(lia)) as (E1 & E2 & E3).
  set (c := length (cursors srv1)) in *.
  set (ready := {| c_filter := search_opts s; c_order := Natural;
                   c_skip := i s + skip s; c_limit := limit s - i s;
                   c_pos := 0; c_open := true |}) in *.
  set (sel := selected (search_opts s) (skip s) (limit s)
                (documents (db w))) in *.
  assert (result_set ready (documents (db w)) = drop (Z.to_nat (i s)) sel)
    as Hrs.
  { subst ready sel. apply replacement_results; lia. }
  assert (length (drop (Z.to_nat (i s)) sel) > 0)%nat as Hpos.
  { rewrite length_drop. lia. }
  destruct (drop (Z.to_nat (i s)) sel) as [|d rest] eqn:Hres;
    [cbn in Hpos; lia|].
  set (srv2 := with_cursors (cursors srv1 ++ [ready]) srv1) in *.
  assert (fc_next c srv2
          = (Return d,
             with_faults (tail (faults srv2))
               (with_cursors (<[c := stepped ready]> (cursors srv2)) srv2)))
    as E4.
  { apply fc_next_delivers.
    - now apply list_lookup_middle.
    - reflexivity.
    - exact Hfs.
    - cbn [documents srv2 with_cursors srv1 with_faults].
      rewrite Hrs. reflexivity. }
  rewrite <- Hil in E3.
  pose proof (reinitialize_returns (P := FixedCollection D) s
                (mkWorld (P := FixedCollection D) srv1
                   ((trace w ++ [ENext (cursor s)]) ++ [lost_cursor_line]))
                c _ c _ c _ d _ E1 E2 E3 E4) as Hre.
  rewrite (next_lost (P := FixedCollection D) s w _ Hlt E0), Hre.
  cbn [fst snd]. exists d.
  split; [reflexivity|].
  split; [|split; [reflexivity|split; [reflexivity|split; [|reflexivity]]]].
  - constructor; cbn [fst snd db]; try reflexivity; try assumption.
    + cbn. now apply isolated_losses_tail.
    + cbn. lia.
    + exists (stepped ready). cbn [incr_i set_i set_cursor cursor i total_docs sort_opts].
      assert (pending (stepped ready) (documents (db w)) = rest) as Hp.
      { unfold pending. cbn [c_pos stepped ready].
        change (result_set (stepped ready)) with (result_set ready).
        rewrite Hrs. reflexivity. }
      split; [|split; [reflexivity|split]].
      * cbn [cursors with_faults with_cursors].
        apply list_lookup_insert_eq. subst srv2.
        cbn [cursors with_cursors]. rewrite length_app. cbn. lia.
      * rewrite Hp. pose proof (f_equal length Hres) as Hl.
        rewrite length_drop in Hl. cbn in Hl. lia.
      * intros _. rewrite Hp.
        replace (Z.to_nat (i s + 1)) with (S (Z.to_nat (i s))) by lia.
        symmetry. eapply drop_cons_drop. exact Hres.
  - eapply drop_cons_lookup. exact Hres.
Qed.

(** One call of [__next__] below [total_docs]: a document comes out and
    the state is again one of the iteration. *)
Lemma healthy_step f sk lim docs (x : @Obj (FixedCollection D)) :
  0 <= sk -> 0 < lim ->
  healthy f sk lim docs x ->
  i x.1 < total_docs x.1 ->
  exists d,
    (__next__ x).1 = Return d
    /\ healthy f sk lim docs (__next__ x).2
    /\ i (__next__ x).2.1 = i x.1 + 1
    /\ sort_opts (__next__ x).2.1 = sort_opts x.1
    /\ (sort_opts x.1 = Natural ->
        selected f sk lim docs !! Z.to_nat (i x.1) = Some d).
Proof.
  intros Hsk Hlim [Hdocs Hclose Hfaults Hf Hskip Hlimit Htotal Hb Hcur] Hlt.
  destruct x as [s w]. cbn [fst snd] in *.
  destruct Hcur as (cs & Hc & Hopen & Hlen & Hnat).
  pose proof (total_le_limit f sk lim docs Hlim) as Hle.
  pose proof (lookup_lt_Some _ _ _ Hc) as Hclt.
  specialize (Hopen Hlt).
  subst f sk lim docs.
  match goal with |- ?G =>
    assert (match faults (db w) with Some _ :: _ => False | _ => True end
            -> G) as Hdeliver
  end.
  { (* the pull answers *)
    intros Hnf.
    assert (c_pos cs < length (result_set cs (documents (db w))))%nat as Hpos.
    { unfold pending in Hlen. rewrite length_drop in Hlen. lia. }
    destruct (lookup_lt_is_Some_2 _ _ Hpos) as [d Hd].
    assert (pending cs (documents (db w))
            = d :: pending (stepped cs) (documents (db w))) as Hpend.
    { unfold pending. now apply drop_S. }
    pose proof (fc_next_delivers (db w) (cursor s) cs d Hc Hopen Hnf Hd) as E.
    rewrite (next_pulled (P := FixedCollection D) s w d _ Hlt E).
    cbn [fst snd]. exists d.
    split; [reflexivity|]. split; [|split; [reflexivity|split; [reflexivity|]]].
    - constructor; cbn [fst snd db]; try reflexivity; try assumption.
      + cbn. now apply isolated_losses_tail.
      + cbn. lia.
      + exists (stepped cs).
        cbn [incr_i set_i set_doc cursor i total_docs sort_opts].
        split; [|split; [intros _; exact Hopen|split]].
        * cbn [cursors with_faults with_cursors].
          now apply list_lookup_insert_eq.
        * rewrite Hpend in Hlen. cbn [length] in Hlen. lia.
        * intros Hn. specialize (Hnat Hn). rewrite Hpend in Hnat.
          replace (Z.to_nat (i s + 1)) with (S (Z.to_nat (i s))) by lia.
          symmetry. eapply drop_cons_drop. symmetry. exact Hnat.
    - intros Hn. specialize (Hnat Hn). rewrite Hpend in Hnat.
      eapply drop_cons_lookup. symmetry. exact Hnat. }
  destruct (faults (db w)) as [|[e|] fs] eqn:Ef;
    [now apply Hdeliver| |now apply Hdeliver].
  clear Hdeliver.
  { (* the pull loses the cursor *)
    destruct (healthy_recovery (search_opts s) (skip s) (limit s)
                (documents (db w)) (s, w) e fs Hsk Hlim) as (d & Hd); auto.
    - constructor; cbn [fst snd]; try reflexivity; try assumption.
      + now rewrite Ef.
      + exists cs. repeat split; auto.
    - exists d. intuition. }
Qed.
Lemma normalize_limit_pos lm : 0 <= lm -> 0 < normalize_limit lm.
Proof.
  intros H. unfold normalize_limit. destruct (Z.eqb_spec lm 0); lia.
Qed.

(** The constructor on a fresh server: what it returns and what it
    leaves behind. *)
Lemma fc_init_returns docs (f : D -> bool) (o : Order D) sk lm dp fs ce :
  0 <= sk -> 0 <= lm ->
  __init__ (P := FixedCollection D) tt f o sk lm dp (start docs fs ce)
  = (Return
       (mkIterator (P := FixedCollection D) tt f o sk dp (normalize_limit lm)
          0 (Z.of_nat (length (selected f sk (normalize_limit lm) docs)))
          0%nat None),
     mkWorld (P := FixedCollection D)
       {| documents := docs;
          cursors := [{| c_filter := f; c_order := o; c_skip := sk;
                         c_limit := normalize_limit lm; c_pos := 0;
                         c_open := true |}];
          faults := fs; close_error := ce |}
       [ECount (P := FixedCollection D) f sk (normalize_limit lm);
        EPrint [PStr "Iterating over";
                PInt (Z.of_nat
                        (length (selected f sk (normalize_limit lm) docs)));
                PStr "documents..."];
        EFind (P := FixedCollection D) f true;
        ESort (P := FixedCollection D) 0%nat o;
        ESkip (P := FixedCollection D) 0%nat sk;
        ELimit (P := FixedCollection D) 0%nat (normalize_limit lm)]).
Proof.
  intros Hsk Hlm. pose proof (normalize_limit_pos lm Hlm) as Hpos.
  unfold __init__, bind, ret, call, print, start; cbn.
  unfold fc_count_documents, fc_skip; cbn.
  destruct (Z.ltb_spec sk 0) as [?|_]; [lia|].
  destruct (Z.leb_spec (normalize_limit lm) 0) as [?|_]; [lia|].
  reflexivity.
Qed.

(** The constructor starts the iteration. *)
Lemma healthy_init docs (f : D -> bool) (o : Order D) sk lm dp fs :
  0 <= sk -> 0 <= lm -> isolated_losses fs = true ->
  exists (it : @PymongoIterator (FixedCollection D))
         (w0 : @World (FixedCollection D)),
    __init__ (P := FixedCollection D) tt f o sk lm dp (start docs fs None)
    = (Return it, w0)
    /\ healthy f sk (normalize_limit lm) docs (it, w0)
    /\ i it = 0
    /\ sort_opts it = o
    /\ total_docs it
       = Z.of_nat (length (selected f sk (normalize_limit lm) docs)).
Proof.
  intros Hsk Hlm Hfs. pose proof (normalize_limit_pos lm Hlm) as Hpos.
  rewrite (fc_init_returns docs f o sk lm dp fs None Hsk Hlm).
  eexists _, _. split; [reflexivity|].
  split; [|repeat split; reflexivity].
  constructor; cbn; try reflexivity; try assumption.
  - lia.
  - eexists. split; [reflexivity|]. split; [reflexivity|].
    unfold pending. cbn [c_pos]. rewrite drop_0.
    split.
    + rewrite length_first_results by assumption. lia.
    + intros ->. unfold result_set, limited, selected; cbn.
      destruct (Z.eqb_spec (normalize_limit lm) 0); [lia|].
      now replace (Z.abs (normalize_limit lm)) with (normalize_limit lm) by lia.
Qed.

(** [__next__] at [i = total_docs]: the cursor is closed and the
    iteration ends, now and on every later call. *)
Lemma healthy_exhausted f sk lim docs (x : @Obj (FixedCollection D)) :
  healthy f sk lim docs x ->
  total_docs x.1 <= i x.1 ->
  (__next__ x).1 = Raise StopIteration
  /\ healthy f sk lim docs (__next__ x).2
  /\ (__next__ x).2.1 = x.1.
Proof.
  intros [Hdocs Hclose Hfaults Hf Hskip Hlimit Htotal Hb Hcur] Hge.
  destruct x as [s w]. cbn [fst snd] in *.
  destruct Hcur as (cs & Hc & Hopen & Hlen & Hnat).
  pose proof (lookup_lt_Some _ _ _ Hc) as Hclt.
  pose proof (fc_close_returns (db w) (cursor s) cs Hclose Hc) as E.
  rewrite (next_closed (P := FixedCollection D) s w _ _ Hge E).
  cbn [fst snd].
  split; [reflexivity|]. split; [|reflexivity].
  constructor; cbn [fst snd db]; try assumption.
  exists (closed cs). split; [|split; [lia|split]].
  - cbn. now apply list_lookup_insert_eq.
  - exact Hlen.
  - exact Hnat.
Qed.
(** Any call of [__next__] keeps the iteration's states. *)
Lemma healthy_next f sk lim docs (x : @Obj (FixedCollection D)) :
  0 <= sk -> 0 < lim ->
  healthy f sk lim docs x ->
  healthy f sk lim docs (__next__ x).2
  /\ i (__next__ x).2.1 = Z.min (i x.1 + 1) (total_docs x.1)
  /\ total_docs (__next__ x).2.1 = total_docs x.1.
Proof.
  intros Hsk Hlim H.
  assert (total_docs (__next__ x).2.1 = total_docs x.1) as Ht
    by (destruct x; apply next_step).
  destruct (Z_lt_le_dec (i x.1) (total_docs x.1)) as [Hlt|Hge].
  - destruct (healthy_step _ _ _ _ _ Hsk Hlim H Hlt) as (d & _ & H' & Hi & _).
    split; [exact H'|split; [lia|exact Ht]].
  - destruct (healthy_exhausted _ _ _ _ _ H Hge) as (_ & H' & Hx).
    split; [exact H'|split; [|exact Ht]]. rewrite Hx.
    pose proof (h_bounds _ _ _ _ _ H). lia.
Qed.

Lemma healthy_advance f sk lim docs n (x : @Obj (FixedCollection D)) :
  0 <= sk -> 0 < lim ->
  healthy f sk lim docs x ->
  healthy f sk lim docs (advance_n n x)
  /\ i (advance_n n x).1 = Z.min (i x.1 + Z.of_nat n) (total_docs x.1)
  /\ total_docs (advance_n n x).1 = total_docs x.1.
Proof.
  intros Hsk Hlim. revert x. induction n as [|n IH]; intros x H.
  - cbn [advance_n]. pose proof (h_bounds _ _ _ _ _ H).
    split; [exact H|split; [lia|reflexivity]].
  - cbn [advance_n].
    destruct (healthy_next _ _ _ _ _ Hsk Hlim H) as (H' & Hi & Ht).
    destruct (IH _ H') as (H'' & Hi' & Ht').
    split; [exact H''|split; [|congruence]].
    rewrite Hi', Hi, Ht. pose proof (h_bounds _ _ _ _ _ H). lia.
Qed.



(** C8, as the code has it.  When the filter matches no document the
    constructor reports a total of 0, having issued one [find] (which
    opens the cursor without pulling from it); the first [__next__] then
    only calls [close] on that cursor, and raises [StopIteration] if the
    close returns and the close's own exception if it raises.  No pull
    is ever issued, and the constructor's [find] is the only one. *)
Theorem empty_selection_ends_at_once docs (f : D -> bool) (o : Order D)
    sk lm dp fs ce :
  0 <= sk -> 0 <= lm -> List.filter f docs = [] ->
  exists (it : @PymongoIterator (FixedCollection D))
         (w0 : @World (FixedCollection D)),
    __init__ (P := FixedCollection D) tt f o sk lm dp (start docs fs ce)
    = (Return it, w0)
    /\ total_docs it = 0
    /\ List.filter is_find (trace w0) = [EFind (P := FixedCollection D) f true]
    /\ List.filter is_next (trace w0) = []
    /\ (__next__ (it, w0)).1
       = Raise match ce with None => StopIteration | Some e => e end
    /\ (__next__ (it, w0)).2.1 = it
    /\ new_events w0 (__next__ (it, w0)).2.2 = [EClose (cursor it)]
    /\ List.filter is_find (trace (__next__ (it, w0)).2.2)
       = [EFind (P := FixedCollection D) f true]
    /\ List.filter is_next (trace (__next__ (it, w0)).2.2) = [].
Proof.
  intros Hsk Hlm Hnone.
  rewrite (fc_init_returns docs f o sk lm dp fs ce Hsk Hlm).
  assert (length (selected f sk (normalize_limit lm) docs) = 0%nat) as ->.
  { unfold selected. rewrite Hnone. reflexivity. }
  eexists _, _. split; [reflexivity|].
  split; [reflexivity|]. split; [reflexivity|]. split; [reflexivity|].
  rewrite (next_exhausted (P := FixedCollection D)) by (cbn; lia).
  cbn [fst snd].
  split; [destruct ce; reflexivity|]. split; [reflexivity|].
  split; [now apply new_events_app|]. split; reflexivity.
Qed.



(** What a failing pull says about the schedule. *)
Lemma healthy_pull_raises f sk lim docs (x : @Obj (FixedCollection D)) e :
  healthy f sk lim docs x ->
  i x.1 < total_docs x.1 ->
  (fc_next (cursor x.1) (db x.2)).1 = Raise e ->
  exists fs, faults (db x.2) = Some e :: fs.
Proof.
  intros [Hdocs Hclose Hfaults Hf Hskip Hlimit Htotal Hb Hcur] Hlt.
  destruct x as [s w]. cbn [fst snd] in *.
  destruct Hcur as (cs & Hc & Hopen & Hlen & Hnat).
  specialize (Hopen Hlt). subst docs.
  assert (c_pos cs < length (result_set cs (documents (db w))))%nat as Hpos.
  { unfold pending in Hlen. rewrite length_drop in Hlen. lia. }
  destruct (lookup_lt_is_Some_2 _ _ Hpos) as [d Hd].
  destruct (faults (db w)) as [|[e'|] fs] eqn:Ef.
  - rewrite (fc_next_delivers (db w) (cursor s) cs d Hc Hopen) by
      (try rewrite Ef; auto). discriminate.
  - rewrite (fc_next_raises (db w) (cursor s) cs e' fs Hc Hopen Ef).
    intros [= ->]. now exists fs.
  - rewrite (fc_next_delivers (db w) (cursor s) cs d Hc Hopen) by
      (try rewrite Ef; auto). discriminate.
Qed.

(** X12.  The sort order does not survive a recovery.  At any state of
    an iteration over a fixed collection, if the pull loses the cursor,
    the document [__next__] returns is the one at position [i] of the
    selection in natural order, whatever sort order the constructor was
    given. *)
Theorem recovery_returns_natural_order_document
    docs (f : D -> bool) (o : Order D) sk lm dp fs n :
  0 <= sk -> 0 <= lm -> isolated_losses fs = true ->
  exists (it : @PymongoIterator (FixedCollection D))
         (w0 : @World (FixedCollection D)),
    __init__ (P := FixedCollection D) tt f o sk lm dp (start docs fs None)
    = (Return it, w0)
    /\ sort_opts it = o
    /\ (i (advance_n n (it, w0)).1 < total_docs (advance_n n (it, w0)).1 ->
        (cursor_next (cursor (advance_n n (it, w0)).1)
           (db (advance_n n (it, w0)).2)).1 = Raise CursorNotFound ->
        exists d,
          (__next__ (advance_n n (it, w0))).1 = Return d
          /\ selected f sk (normalize_limit lm) docs
             !! Z.to_nat (i (advance_n n (it, w0)).1) = Some d).
Proof.
  intros Hsk Hlm Hfs. pose proof (normalize_limit_pos lm Hlm) as Hpos.
  destruct (healthy_init docs f o sk lm dp fs Hsk Hlm Hfs)
    as (it & w0 & Hinit & H & _ & Ho & _).
  exists it, w0. split; [exact Hinit|]. split; [exact Ho|].
  destruct (healthy_advance _ _ _ _ n _ Hsk Hpos H) as (H' & _).
  intros Hlt Hlost.
  destruct (healthy_pull_raises _ _ _ _ _ _ H' Hlt Hlost) as (fs' & Ef).
  destruct (healthy_recovery _ _ _ _ _ _ _ Hsk Hpos H' Hlt Ef)
    as (d & Hr & _ & _ & _ & Hd & _).
  now exists d.
Qed.

(** X13.  Over a fixed collection the replacement limit is positive at
    every state in which a recovery can happen ([i < total_docs]): a
    replacement cursor is never opened with limit 0, which pymongo reads
    as no limit, nor with a negative one. *)
Theorem replacement_limit_is_positive
    docs (f : D -> bool) (o : Order D) sk lm dp fs n :
  0 <= sk -> 0 <= lm -> isolated_losses fs = true ->
  exists (it : @PymongoIterator (FixedCollection D))
         (w0 : @World (FixedCollection D)),
    __init__ (P := FixedCollection D) tt f o sk lm dp (start docs fs None)
    = (Return it, w0)
    /\ total_docs it <= limit it
    /\ (i (advance_n n (it, w0)).1 < total_docs (advance_n n (it, w0)).1 ->
        0 < intermediate_limit (advance_n n (it, w0)).1
        /\ intermediate_limit (advance_n n (it, w0)).1
           = limit it - i (advance_n n (it, w0)).1).
Proof.
  intros Hsk Hlm Hfs. pose proof (normalize_limit_pos lm Hlm) as Hpos.
  destruct (healthy_init docs f o sk lm dp fs Hsk Hlm Hfs)
    as (it & w0 & Hinit & H & _ & _ & Ht).
  exists it, w0. split; [exact Hinit|].
  pose proof (total_le_limit f sk _ docs Hpos) as Hle.
  pose proof (h_limit _ _ _ _ _ H) as Hl0. cbn [fst] in Hl0.
  split; [rewrite Ht, Hl0; exact Hle|].
  destruct (healthy_advance _ _ _ _ n _ Hsk Hpos H) as (H' & _ & Ht').
  pose proof (h_limit _ _ _ _ _ H') as Hl.
  pose proof (h_total _ _ _ _ _ H') as Htt.
  intros Hlt. rewrite intermediate_limit_eq, Hl, Hl0.
  destruct (Z.eqb_spec (normalize_limit lm) 0); [lia|]. split; lia.
Qed.

End FixedFacts.


(** * Sample runs *)

Lemma demo_constructs fs ce :
  demo [10; 20; 30] fs ce
  = (Return (demo_iterator 3), (demo [10; 20; 30] fs ce).2).
Proof. reflexivity. Qed.





(** The spec's scenario: skip 50, limit 100, 40 documents emitted; the
    replacement cursor is opened with skip 90 and limit 60. *)
Lemma reinitialize_skip_and_limit_witness :
  let r := __init__ (P := FixedCollection Z) tt every Natural 50 100 0
             (start (List.map Z.of_nat (seq 0 200)) [] None) in
  let x := advance_n 40
             (mkIterator (P := FixedCollection Z) tt every Natural
                50 0 100 0 100 0%nat None, r.2) in
  i x.1 = 40 /\ limit x.1 = 100 /\ skip x.1 = 50
  /\ skip x.1 + i x.1 = 90
  /\ (if limit x.1 =? 0 then 0 else limit x.1 - i x.1) = 60
  /\ trace (__reinitialize (x.1, x.2)).2.2
     = trace x.2 ++
       [EFind (P := FixedCollection Z) (search_opts x.1) true;
        ESkip (P := FixedCollection Z) 1%nat (skip x.1 + i x.1);
        ELimit (P := FixedCollection Z) 1%nat (if limit x.1 =? 0 then 0 else limit x.1 - i x.1);
        ENext (P := FixedCollection Z) 1%nat].
Proof.
  intros r x.
  split; [vm_compute; reflexivity|]. split; [vm_compute; reflexivity|].
  split; [vm_compute; reflexivity|]. split; [vm_compute; reflexivity|].
  split; [vm_compute; reflexivity|].
  destruct (reinitialize_skip_and_limit (P := FixedCollection Z) x.1 x.2)
    as (_ & Hchain & _).
  assert (find (collection x.1) (search_opts x.1) true (db x.2)
          = (Return 1%nat,
             (find (collection x.1) (search_opts x.1) true (db x.2)).2))
    as E0 by (vm_compute; reflexivity).
  destruct (Hchain _ _ E0) as (_ & Hskip).
  assert (cursor_skip (Pymongo := FixedCollection Z) 1%nat (skip x.1 + i x.1)
            (find (collection x.1) (search_opts x.1) true (db x.2)).2
          = (Return 1%nat,
             (cursor_skip (Pymongo := FixedCollection Z) 1%nat (skip x.1 + i x.1)
                (find (collection x.1) (search_opts x.1) true (db x.2)).2).2))
    as E1 by (vm_compute; reflexivity).
  destruct (Hskip _ _ E1) as (_ & Hlimit).
  assert (cursor_limit (Pymongo := FixedCollection Z) 1%nat
            (if limit x.1 =? 0 then 0 else limit x.1 - i x.1)
            (cursor_skip (Pymongo := FixedCollection Z) 1%nat (skip x.1 + i x.1)
               (find (collection x.1) (search_opts x.1) true (db x.2)).2).2
          = (Return 1%nat,
             (cursor_limit (Pymongo := FixedCollection Z) 1%nat
                (if limit x.1 =? 0 then 0 else limit x.1 - i x.1)
                (cursor_skip (Pymongo := FixedCollection Z) 1%nat (skip x.1 + i x.1)
                   (find (collection x.1) (search_opts x.1) true
                      (db x.2)).2).2).2))
    as E2 by (vm_compute; reflexivity).
  destruct (Hlimit _ _ E2) as (_ & _ & _ & _ & Htrace).
  exact Htrace.
Defined.

(** Three documents, the first pull fails with some other error. *)
Lemma other_errors_propagate_witness :
  let s := demo_iterator 3 in
  let w := (demo [10; 20; 30] [Some (OtherError 7)] None).2 in
  i s < total_docs s
  /\ (cursor_next (cursor s) (db w)).1 = Raise (OtherError 7)
  /\ OtherError 7 <> CursorNotFound
  /\ (__next__ (s, w)).1 = Raise (OtherError 7)
  /\ (__next__ (s, w)).2.1 = s
  /\ new_events w (__next__ (s, w)).2.2 = [ENext (cursor s)].
Proof.
  intros s w. split; [reflexivity|]. split; [reflexivity|].
  split; [discriminate|].
  edestruct (other_errors_propagate (P := FixedCollection Z) s w (OtherError 7))
    as (Hn & Hev & _); [reflexivity|reflexivity|discriminate|].
  rewrite Hn. cbn [fst snd]. split; [reflexivity|]. split; [reflexivity|].
  rewrite Hn in Hev. exact Hev.
Defined.

(** C7 as stated fails: an empty collection, so the first [__next__] is
    at [i >= total_docs], and a cursor whose [close] raises; [__next__]
    raises that error, not [StopIteration]. *)
Lemma close_error_is_not_ignored :
  let s := demo_iterator 0 in
  let w := (demo [] [] (Some (OtherError 9))).2 in
  (demo [] [] (Some (OtherError 9))).1 = Return s
  /\ total_docs s <= i s
  /\ (cursor_close (cursor s) (db w)).1 = Raise (OtherError 9)
  /\ (__next__ (s, w)).1 = Raise (OtherError 9)
  /\ (__next__ (s, w)).1 <> Raise StopIteration.
Proof.
  intros s w. split; [reflexivity|]. split; [discriminate|].
  split; [reflexivity|]. split; [reflexivity|]. discriminate.
Qed.

(** The same run, and the one in which [close] returns. *)
Lemma exhausted_closes_then_stops_witness :
  let s := demo_iterator 0 in
  let w := (demo [] [] None).2 in
  total_docs s <= i s
  /\ (__next__ (s, w)).1 = Raise StopIteration
  /\ new_events w (__next__ (s, w)).2.2 = [EClose (cursor s)].
Proof.
  intros s w. split; [discriminate|].
  destruct (exhausted_closes_then_stops (P := FixedCollection Z) s w
              ltac:(discriminate))
    as (_ & Hev & _ & Hstop & _).
  split; [exact (Hstop tt eq_refl)|exact Hev].
Defined.

(** C8 as stated fails: nothing matches, the total is 0 and the first
    [__next__] ends the iteration, but the trace of the whole run holds
    the [find] the constructor issued. *)
Lemma find_is_issued_for_an_empty_selection :
  exists it w0,
    __init__ (P := FixedCollection Z) tt nothing Natural 0 0 0
      (start [1; 2; 3] [] None)
    = (Return it, w0)
    /\ total_docs it = 0
    /\ (__next__ (it, w0)).1 = Raise StopIteration
    /\ List.filter is_find (trace (__next__ (it, w0)).2.2)
       = [EFind (P := FixedCollection Z) nothing true]
    /\ List.filter is_find (trace (__next__ (it, w0)).2.2) <> [].
Proof.
  eexists _, _. split; [reflexivity|]. split; [reflexivity|].
  split; [reflexivity|]. split; [reflexivity|]. discriminate.
Qed.

Lemma empty_selection_ends_at_once_witness :
  0 <= 0 /\ 0 <= 0 /\ List.filter nothing [1; 2; 3] = []
  /\ (exists it w0,
        __init__ (P := FixedCollection Z) tt nothing Natural 0 0 0
          (start [1; 2; 3] [] None)
        = (Return it, w0)
        /\ total_docs it = 0
        /\ (__next__ (it, w0)).1 = Raise StopIteration
        /\ List.filter is_next (trace (__next__ (it, w0)).2.2) = [])
  /\ (exists it w0,
        __init__ (P := FixedCollection Z) tt nothing Natural 0 0 0
          (start [1; 2; 3] [] (Some (OtherError 9)))
        = (Return it, w0)
        /\ total_docs it = 0
        /\ (__next__ (it, w0)).1 = Raise (OtherError 9)
        /\ List.filter is_next (trace (__next__ (it, w0)).2.2) = []).
Proof.
  split; [lia|]. split; [lia|]. split; [reflexivity|]. split.
  - destruct (empty_selection_ends_at_once [1; 2; 3] nothing Natural 0 0 0 []
                None ltac:(lia) ltac:(lia) eq_refl)
      as (it & w0 & Hinit & Ht & _ & _ & Hr & _ & _ & _ & Hn).
    exists it, w0. repeat split; assumption.
  - destruct (empty_selection_ends_at_once [1; 2; 3] nothing Natural 0 0 0 []
                (Some (OtherError 9)) ltac:(lia) ltac:(lia) eq_refl)
      as (it & w0 & Hinit & Ht & _ & _ & Hr & _ & _ & _ & Hn).
    exists it, w0. repeat split; assumption.
Defined.

(** Three documents counted, two deleted by another client before the
    first pull: the first [__next__] returns a document, the second finds
    the cursor at its end with [i = 1 < 3], and [list(it)] yields one
    document. *)
Lemma cursor_end_propagates_witness :
  let w := other_client_leaves [10] (demo [10; 20; 30] [] None).2 in
  let x := (__next__ (demo_iterator 3, w)).2 in
  i x.1 < total_docs x.1
  /\ (cursor_next (cursor x.1) (db x.2)).1 = Raise StopIteration
  /\ (__next__ x).1 = Raise StopIteration
  /\ i (__next__ x).2.1 = 1
  /\ total_docs (__next__ x).2.1 = 3
  /\ new_events x.2 (__next__ x).2.2 = [ENext (cursor x.1)]
  /\ yielded 10 (Return (demo_iterator 3), w) = Some [10].
Proof.
  intros w x. split; [reflexivity|]. split; [reflexivity|].
  edestruct (cursor_end_propagates (P := FixedCollection Z) x.1 x.2)
    as (Hn & Hev & _ & _ & _); [reflexivity|reflexivity|].
  change (x.1, x.2) with x in Hn, Hev.
  rewrite Hn. cbn [fst snd]. split; [reflexivity|]. split; [reflexivity|].
  split; [reflexivity|]. rewrite Hn in Hev. split; [exact Hev|reflexivity].
Defined.

(** The order is not kept across a recovery: sorted in descending order,
    an uninterrupted run yields 3, 2, 1; with the cursor lost at the
    second pull the replacement cursor scans in natural order from
    position 1 and the run yields 3, 2, 3. *)
Lemma order_is_lost_after_recovery :
  yielded 10
    (__init__ (P := FixedCollection Z) tt every descending 0 0 0
       (start [1; 2; 3] [] None))
  = Some [3; 2; 1]
  /\ yielded 10
       (__init__ (P := FixedCollection Z) tt every descending 0 0 0
          (start [1; 2; 3] [None; Some CursorNotFound] None))
     = Some [3; 2; 3].
Proof. split; reflexivity. Qed.

(** Recovery at the last document: 25 documents, no limit, the cursor
    lost after 24 of them.  The next call returns the 25th document and
    the one after it ends the iteration. *)
Lemma last_document_after_recovery :
  let docs := List.map Z.of_nat (seq 0 25) in
  let fs := repeat None 24 ++ [Some CursorNotFound] in
  exists it w0,
    __init__ (P := FixedCollection Z) tt every Natural 0 0 0
      (start docs fs None) = (Return it, w0)
    /\ total_docs it = 25
    /\ (__next__ (advance_n 24 (it, w0))).1 = Return 24
    /\ (__next__ (advance_n 25 (it, w0))).1 = Raise StopIteration.
Proof.
  eexists _, _. split; [reflexivity|]. split; [vm_compute; reflexivity|].
  split; vm_compute; reflexivity.
Qed.

(** ** Sample runs for the further properties *)

Lemma reporting_constructs fs dp :
  reporting [10; 20; 30] fs dp
  = (Return (reporting_iterator 3 dp), (reporting [10; 20; 30] fs dp).2).
Proof. reflexivity. Qed.

(** No limit given, two documents emitted: the replacement limit would
    be [2 ^ 31 - 2]. *)
Lemma replacement_limit_is_never_unbounded_witness :
  intermediate_limit
    (advance_n 2 (demo_iterator 3, (demo [10; 20; 30] [] None).2)).1
  = 2 ^ 31 - 2.
Proof.
  destruct (replacement_limit_is_never_unbounded
              (P := FixedCollection Z) tt every Natural 0 0 0
              (start [10; 20; 30] [] None)
              (demo_iterator 3) (demo [10; 20; 30] [] None).2 2
              (demo_constructs [] None))
    as (_ & _ & _ & H).
  rewrite (H eq_refl). reflexivity.
Defined.

(** Three documents counted, then another client adds two: the cursor
    could deliver five, the list stops at three. *)
Lemma list_never_exceeds_total_witness :
  let x := (demo_iterator 3,
            other_client_leaves [10; 20; 30; 40; 50]
              (demo [10; 20; 30] [] None).2) in
  to_list 10 x = Some (Return [10; 20; 30], advance_n 4 x)
  /\ i (advance_n 4 x).1 = i x.1 + Z.of_nat (length [10; 20; 30])
  /\ total_docs (advance_n 4 x).1 = total_docs x.1
  /\ (i x.1 <= total_docs x.1 ->
      Z.of_nat (length [10; 20; 30]) <= total_docs x.1 - i x.1).
Proof.
  intros x.
  assert (to_list 10 x = Some (Return [10; 20; 30], advance_n 4 x)) as H
    by (vm_compute; reflexivity).
  split; [exact H|].
  exact (list_never_exceeds_total (P := FixedCollection Z) 10 x
           [10; 20; 30] (advance_n 4 x) H).
Defined.

(** An empty collection: three more calls, three more closes. *)
Lemma exhausted_stays_exhausted_witness :
  let s := demo_iterator 0 in
  let w := (demo [] [] None).2 in
  total_docs s <= i s
  /\ (advance_n 3 (s, w)).1 = s
  /\ new_events w (advance_n 3 (s, w)).2
     = [EClose (cursor s); EClose (cursor s); EClose (cursor s)].
Proof.
  intros s w. split; [discriminate|].
  destruct (exhausted_stays_exhausted (P := FixedCollection Z) 3 s w
              ltac:(discriminate)) as (H1 & H2 & _).
  split; [exact H1|exact H2].
Defined.

(** The cursor is lost and so is its replacement. *)
Lemma second_loss_is_not_recovered_witness :
  let s := demo_iterator 3 in
  let w := (demo [10; 20; 30]
              [Some CursorNotFound; Some CursorNotFound] None).2 in
  i s < total_docs s
  /\ (cursor_next (cursor s) (db w)).1 = Raise CursorNotFound
  /\ (__next__ (s, w)).1 = Raise CursorNotFound
  /\ i (__next__ (s, w)).2.1 = i s
  /\ cursor (__next__ (s, w)).2.1 = 1%nat.
Proof.
  intros s w. split; [reflexivity|]. split; [reflexivity|].
  edestruct (second_loss_is_not_recovered (P := FixedCollection Z) s w)
    as (Hr & _ & Hi & Hc & _);
    [reflexivity|reflexivity|reflexivity|reflexivity|reflexivity|reflexivity|].
  split; [exact Hr|]. split; [exact Hi|exact Hc].
Defined.

(** Progress every 2 documents; the second pull prints. *)
Lemma pull_returns_and_reports_witness :
  let x := (__next__ (reporting_iterator 3 2,
                      (reporting [10; 20; 30] [] 2).2)).2 in
  i x.1 < total_docs x.1
  /\ (cursor_next (cursor x.1) (db x.2)).1 = Return 20
  /\ (__next__ x).1 = Return 20
  /\ doc (__next__ x).2.1 = Some 20
  /\ new_events x.2 (__next__ x).2.2
     = [ENext (cursor x.1);
        EPrint [PStr "Parsing doc"; PInt 2; PStr "of"; PInt 3]].
Proof.
  intros x. split; [reflexivity|]. split; [reflexivity|].
  edestruct (pull_returns_and_reports (P := FixedCollection Z) x.1 x.2 20)
    as (Hr & Hd & _ & _ & _ & Hev); [reflexivity|reflexivity|].
  change (x.1, x.2) with x in Hr, Hd, Hev.
  split; [exact Hr|]. split; [exact Hd|exact Hev].
Defined.

(** Progress every document, the first pull loses the cursor: the
    recovered document is returned without a progress line and without
    being stored in [doc]. *)
Lemma recovery_skips_doc_and_progress_witness :
  let s := reporting_iterator 3 1 in
  let w := (reporting [10; 20; 30] [Some CursorNotFound] 1).2 in
  i s < total_docs s
  /\ (cursor_next (cursor s) (db w)).1 = Raise CursorNotFound
  /\ (__next__ (s, w)).1 = Return 10
  /\ doc (__next__ (s, w)).2.1 = None
  /\ List.filter is_print (new_events w (__next__ (s, w)).2.2)
     = [lost_cursor_line].
Proof.
  intros s w. split; [reflexivity|]. split; [reflexivity|].
  edestruct (recovery_skips_doc_and_progress (P := FixedCollection Z) s w)
    as (Hd & Hp); [reflexivity|reflexivity|].
  split; [reflexivity|]. split; [exact Hd|exact Hp].
Defined.

(** A negative skip, which the count rejects. *)
Lemma constructor_failure_witness :
  let w := start [10] [] None in
  let r := __init__ (P := FixedCollection Z) tt every Natural (-1) 0 0 w in
  r = (Raise (OtherError 1), r.2)
  /\ List.filter is_next (new_events w r.2) = []
  /\ new_events w r.2 = [ECount (P := FixedCollection Z) every (-1) (2 ^ 31)].
Proof.
  intros w r.
  assert (r = (Raise (OtherError 1), r.2)) as H by reflexivity.
  split; [exact H|].
  destruct (constructor_failure (P := FixedCollection Z) tt every Natural
              (-1) 0 0 w (OtherError 1) r.2 H) as (Hn & _ & _ & _).
  split; [exact Hn|reflexivity].
Defined.

(** The default constructor over three documents. *)
Lemma constructor_opens_the_cursor_witness :
  exists c0 c1 c2,
    new_events (start [10; 20; 30] [] None) (demo [10; 20; 30] [] None).2 =
      [ECount (P := FixedCollection Z) every 0 (normalize_limit 0);
       EPrint [PStr "Iterating over"; PInt (total_docs (demo_iterator 3));
               PStr "documents..."];
       EFind (P := FixedCollection Z) every true;
       ESort (P := FixedCollection Z) c0 Natural;
       ESkip (P := FixedCollection Z) c1 0;
       ELimit (P := FixedCollection Z) c2 (normalize_limit 0)].
Proof.
  destruct (constructor_opens_the_cursor (P := FixedCollection Z)
              tt every Natural 0 0 0 (start [10; 20; 30] [] None)
              (demo_iterator 3) (demo [10; 20; 30] [] None).2
              (demo_constructs [] None))
    as (c0 & c1 & c2 & H & _).
  exists c0, c1, c2. exact H.
Defined.


(** Sorted in descending order and the cursor lost at the first pull:
    the document returned is 1, the first in natural order, and not 3. *)
Lemma recovery_returns_natural_order_document_witness :
  0 <= 0 /\ 0 <= 0 /\ isolated_losses [Some CursorNotFound] = true
  /\ exists it w0,
       __init__ (P := FixedCollection Z) tt every descending 0 0 0
         (start [1; 2; 3] [Some CursorNotFound] None)
       = (Return it, w0)
       /\ sort_opts it = descending
       /\ (__next__ (advance_n 0 (it, w0))).1 = Return 1.
Proof.
  split; [lia|]. split; [lia|]. split; [reflexivity|].
  destruct (recovery_returns_natural_order_document [1; 2; 3] every
              descending 0 0 0 [Some CursorNotFound] 0
              ltac:(lia) ltac:(lia) eq_refl)
    as (it & w0 & Hinit & Ho & Hrec).
  exists it, w0. split; [exact Hinit|]. split; [exact Ho|].
  pose proof Hinit as Hc.
  rewrite (fc_init_returns [1; 2; 3] every descending 0 0 0
             [Some CursorNotFound] None ltac:(lia) ltac:(lia)) in Hc.
  injection Hc as Hit Hw0. subst it w0.
  destruct Hrec as (d & Hd & Hsel); [reflexivity|reflexivity|].
  vm_compute in Hsel. injection Hsel as <-. exact Hd.
Defined.

(** A limit of 3 over five documents, one emitted: a recovery now would
    ask for the 2 that remain. *)
Lemma replacement_limit_is_positive_witness :
  0 <= 0 /\ 0 <= 3 /\ isolated_losses [] = true
  /\ exists it w0,
       __init__ (P := FixedCollection Z) tt every Natural 0 3 0
         (start [10; 20; 30; 40; 50] [] None)
       = (Return it, w0)
       /\ total_docs it <= limit it
       /\ intermediate_limit (advance_n 1 (it, w0)).1 = 2.
Proof.
  split; [lia|]. split; [lia|]. split; [reflexivity|].
  destruct (replacement_limit_is_positive [10; 20; 30; 40; 50] every
              Natural 0 3 0 [] 1 ltac:(lia) ltac:(lia) eq_refl)
    as (it & w0 & Hinit & Hle & Hpos).
  exists it, w0. split; [exact Hinit|]. split; [exact Hle|].
  pose proof Hinit as Hc.
  rewrite (fc_init_returns [10; 20; 30; 40; 50] every Natural 0 3 0
             [] None ltac:(lia) ltac:(lia)) in Hc.
  injection Hc as Hit Hw0. subst it w0.
  destruct Hpos as (_ & Heq); [reflexivity|].
  rewrite Heq. reflexivity.
Defined.
